(** * The BLS client of [api_bsl.py]: Request Executor, Range Splitter,
      Cleaner, Writer and the [process_cpi_series] facade.

    The class [APIbureau] is embedded method by method.  A pandas frame is
    the ordered list of its rows; the HTTP service, standard output, the
    files written and the figures shown are the components of an explicit
    state threaded through a state-and-exception monad. *)

From Stdlib Require Import ZArith List String Ascii Bool Lia Permutation Sorted.
From Stdlib Require Import DecimalString DecimalPos DecimalZ.
Import ListNotations.

Local Open Scope string_scope.
Local Open Scope Z_scope.

(* ================================================================== *)
(** * Exceptions and outcomes *)

(** The Python exceptions the modelled code can raise. *)
Inductive exn : Type :=
| ValueError (msg : string)
| KeyError (key : string)
| IndexError
| JSONDecodeError
| UnboundLocalError (name : string).

Inductive outcome (A : Type) : Type :=
| Ok (a : A)
| Raise (e : exn).
Arguments Ok {A} a.
Arguments Raise {A} e.

(* ================================================================== *)
(** * Data model *)

(** A float64 cell, kept as the decimal its literal denotes
    ([Fin m e] is [m * 10^e]); binary rounding plays no part below. *)
Inductive pyfloat : Type :=
| Fin (m e : Z)
| Inf (negative : bool)
| NaN.

(** One cell of the [value] column: a JSON string as upstream sends it,
    a missing value, or a float64 once the column has been coerced. *)
Inductive cell : Type :=
| CStr (s : string)
| CNull
| CNum (x : pyfloat).

(** One cell of the [date] column: [pd.NaT] or the first day of a month. *)
Inductive datetime : Type :=
| NaT
| Month (y m : Z).

(** A row of the frame.  [date] is [None] as long as the frame has no
    [date] column.  The footnote columns are carried nowhere and left out. *)
Record row : Type := mkRow {
  year : string;
  period : string;
  periodName : string;
  value : cell;
  date : option datetime
}.

(** A DataFrame, as the list of its rows in order.  Every frame without
    rows that this program builds ([pd.DataFrame()], [from_records] of an
    empty list, a [concat] of those) has no columns either: [[]] is that
    frame. *)
Definition DataFrame : Type := list row.

Definition empty (df : DataFrame) : bool :=
  match df with [] => true | _ :: _ => false end.

(** One element of [Results.series[0].data] in the upstream answer. *)
Record observation : Type := mkObs {
  o_year : string;
  o_period : string;
  o_periodName : string;
  o_value : cell
}.

Definition from_records (data : list observation) : DataFrame :=
  map (fun o => mkRow (o_year o) (o_period o) (o_periodName o) (o_value o) None)
      data.

(** [pd.concat(list_df, ignore_index=True)]. *)
Definition pd_concat (list_df : list DataFrame) : outcome DataFrame :=
  match list_df with
  | [] => Raise (ValueError "No objects to concatenate")
  | _ :: _ => Ok (List.concat list_df)
  end.

(** The JSON body of the POST ([startyear] and [endyear] are sent as the
    decimal strings of these integers). *)
Record payload : Type := mkPayload {
  seriesid : list string;
  startyear : Z;
  endyear : Z
}.

(** The answer of the service.  The body, when it is JSON at all, is an
    object; each key the code reads may be absent. *)
Record series : Type := mkSeries {
  s_data : option (list observation)
}.

Record results : Type := mkResults {
  r_series : option (list series)
}.

Record body : Type := mkBody {
  b_status : option string;
  b_message : option (list string);
  b_Results : option results
}.

Record response : Type := mkResponse {
  status_code : Z;
  json : option body
}.

(** What [print] receives: its positional arguments. *)
Inductive printed : Type :=
| PStr (s : string)
| PInt (z : Z)
| PList (l : list string).

Inductive file_format : Type :=
| Excel
| Csv (sep : string).

Record file : Type := mkFile {
  path : string;
  format : file_format;
  content : DataFrame
}.

Record figure : Type := mkFigure {
  fig_title : string;
  fig_x : list (option datetime);
  fig_y : list cell
}.

(** The world around the class: the requests posted so far, the lines
    printed, the files written and the figures shown. *)
Record St : Type := mkSt {
  sent : list payload;
  stdout : list (list printed);
  files : list file;
  shown : list figure
}.

Definition init : St := mkSt [] [] [] [].

(* ================================================================== *)
(** * The state-and-exception monad *)

Definition M (A : Type) : Type := St -> outcome A * St.

Definition ret {A} (a : A) : M A := fun s => (Ok a, s).

Definition raise {A} (e : exn) : M A := fun s => (Raise e, s).

Definition bind {A B} (c : M A) (k : A -> M B) : M B :=
  fun s =>
    match c s with
    | (Ok a, s') => k a s'
    | (Raise e, s') => (Raise e, s')
    end.

Definition lift {A} (o : outcome A) : M A := fun s => (o, s).

Notation "x <- c ;; k" := (bind c (fun x => k))
  (at level 61, c at next level, right associativity).
Notation "' pat <- c ;; k" := (bind c (fun x => match x with pat => k end))
  (at level 61, pat pattern, c at next level, right associativity).
Notation "c ;;; k" := (bind c (fun _ => k))
  (at level 61, right associativity).

(** [d[k]] on a dict. *)
Definition getitem {A} (key : string) (o : option A) : M A :=
  match o with
  | Some a => ret a
  | None => raise (KeyError key)
  end.

(** [l[0]] on a list. *)
Definition first {A} (l : list A) : M A :=
  match l with
  | a :: _ => ret a
  | [] => raise IndexError
  end.

(** [response.json()] *)
Definition decode (r : response) : M body :=
  match json r with
  | Some data => ret data
  | None => raise JSONDecodeError
  end.

Definition print (args : list printed) : M unit :=
  fun s => (Ok tt, mkSt (sent s) (stdout s ++ [args])%list (files s) (shown s)).

Definition write (f : file) : M unit :=
  fun s => (Ok tt, mkSt (sent s) (stdout s) (files s ++ [f])%list (shown s)).

Definition show (g : figure) : M unit :=
  fun s => (Ok tt, mkSt (sent s) (stdout s) (files s) (shown s ++ [g])%list).

(* ================================================================== *)
(** * Library functions the Cleaner calls *)

Definition is_digit (c : ascii) : bool :=
  let n := nat_of_ascii c in ((48 <=? n) && (n <=? 57))%nat.

Definition digit_val (c : ascii) : Z := Z.of_nat (nat_of_ascii c) - 48.

Definition is_space (c : ascii) : bool :=
  let n := nat_of_ascii c in ((n =? 32) || ((9 <=? n) && (n <=? 13)))%nat.

Definition lower (c : ascii) : ascii :=
  let n := nat_of_ascii c in
  if ((65 <=? n) && (n <=? 90))%nat then ascii_of_nat (n + 32) else c.

(** ** [float(s)], after the grammar of the Python reference:
    [[sign] (number [exponent] | "inf" | "infinity" | "nan")] between
    optional white space, with [digitpart ::= digit (["_"] digit)*]. *)

(** The rest of a [digitpart]: value read so far, number of digits, input left. *)
Fixpoint digits_tail (acc : Z) (n : Z) (l : list ascii) : Z * Z * list ascii :=
  match l with
  | c :: l' =>
      if is_digit c then digits_tail (10 * acc + digit_val c) (n + 1) l'
      else if Ascii.eqb c "_" then
        match l' with
        | d :: l'' =>
            if is_digit d then digits_tail (10 * acc + digit_val d) (n + 1) l''
            else (acc, n, l)
        | [] => (acc, n, l)
        end
      else (acc, n, l)
  | [] => (acc, n, l)
  end.

Definition digitpart (l : list ascii) : option (Z * Z * list ascii) :=
  match l with
  | c :: l' => if is_digit c then Some (digits_tail (digit_val c) 1 l') else None
  | [] => None
  end.

(** [number ::= [digitpart] "." digitpart | digitpart ["."]], as mantissa,
    decimal exponent and input left. *)
Definition number (l : list ascii) : option (Z * Z * list ascii) :=
  match digitpart l with
  | Some (i, _, rest) =>
      match rest with
      | "."%char :: rest' =>
          match digitpart rest' with
          | Some (f, n, rest'') => Some (i * 10 ^ n + f, - n, rest'')
          | None => Some (i, 0, rest')
          end
      | _ => Some (i, 0, rest)
      end
  | None =>
      match l with
      | "."%char :: rest' =>
          match digitpart rest' with
          | Some (f, n, rest'') => Some (f, - n, rest'')
          | None => None
          end
      | _ => None
      end
  end.

Definition signed (l : list ascii) : bool * list ascii :=
  match l with
  | "-"%char :: l' => (true, l')
  | "+"%char :: l' => (false, l')
  | _ => (false, l)
  end.

(** [exponent ::= ("e" | "E") [sign] digitpart], up to the end of the input. *)
Definition exponent (l : list ascii) : option Z :=
  match l with
  | [] => Some 0
  | c :: l' =>
      if Ascii.eqb (lower c) "e" then
        let '(neg, l'') := signed l' in
        match digitpart l'' with
        | Some (x, _, []) => Some (if neg then - x else x)
        | _ => None
        end
      else None
  end.

Definition absfloatvalue (neg : bool) (l : list ascii) : option pyfloat :=
  let word := string_of_list_ascii (map lower l) in
  if String.eqb word "inf" || String.eqb word "infinity" then Some (Inf neg)
  else if String.eqb word "nan" then Some NaN
  else
    match number l with
    | Some (m, e, rest) =>
        match exponent rest with
        | Some x => Some (Fin (if neg then - m else m) (e + x))
        | None => None
        end
    | None => None
    end.

Fixpoint lstrip (l : list ascii) : list ascii :=
  match l with
  | c :: l' => if is_space c then lstrip l' else l
  | [] => []
  end.

Definition strip (l : list ascii) : list ascii :=
  rev (lstrip (rev (lstrip l))).

Definition float_of_string (s : string) : option pyfloat :=
  let '(neg, l) := signed (strip (list_ascii_of_string s)) in
  absfloatvalue neg l.

(** ** [pd.to_datetime(s, errors='coerce', format='%Y-%m')] *)

(** The directive [%m]: [1[0-2]|0[1-9]|[1-9]], with nothing left over. *)
Definition parse_month (l : list ascii) : option Z :=
  match l with
  | [a] => if is_digit a && negb (Ascii.eqb a "0") then Some (digit_val a) else None
  | [a; b] =>
      if Ascii.eqb a "1" && is_digit b && (digit_val b <=? 2) then Some (10 + digit_val b)
      else if Ascii.eqb a "0" && is_digit b && negb (Ascii.eqb b "0") then Some (digit_val b)
      else None
  | _ => None
  end.

(** The format [%Y-%m]: four digits, a dash, a month. *)
Definition strptime_Ym (s : string) : option (Z * Z) :=
  match list_ascii_of_string s with
  | a :: b :: c :: d :: sep :: rest =>
      if is_digit a && is_digit b && is_digit c && is_digit d && Ascii.eqb sep "-" then
        match parse_month rest with
        | Some m =>
            Some (1000 * digit_val a + 100 * digit_val b + 10 * digit_val c + digit_val d, m)
        | None => None
        end
      else None
  | _ => None
  end.

(** Months are numbered from year 0 to order and to bound them. *)
Definition ordinal (y m : Z) : Z := 12 * y + m.

(** The months whose first day a nanosecond [Timestamp] can hold:
    1677-10 to 2262-04.  This is the resolution [to_datetime] works at in
    pandas 2; a pandas that parses at a coarser resolution keeps the
    months outside it, and agrees on those inside. *)
Definition in_bounds (y m : Z) : bool :=
  (ordinal 1677 10 <=? ordinal y m) && (ordinal y m <=? ordinal 2262 4).

(** With [errors='coerce'] whatever does not parse, or is out of bounds,
    becomes [NaT]. *)
Definition to_datetime (s : string) : datetime :=
  match strptime_Ym s with
  | Some (y, m) => if in_bounds y m then Month y m else NaT
  | None => NaT
  end.

(** [s[1:]] *)
Definition str_from_1 (s : string) : string :=
  match s with
  | EmptyString => EmptyString
  | String _ s' => s'
  end.

(** ** [df.sort_values(by='date')]

    pandas sets the rows with a null key aside, sorts the others by key and
    puts the null ones last, in the order they had.  Rows with equal keys
    are kept here in the order they had, which is one of the orders the
    default sort may give them; the properties that hold for every such
    order are stated over [sort_values_by] further down. *)
Definition notna (r : row) : bool :=
  match date r with
  | Some (Month _ _) => true
  | _ => false
  end.

Definition isna (r : row) : bool := negb (notna r).

Definition key (r : row) : Z :=
  match date r with
  | Some (Month y m) => ordinal y m
  | _ => 0
  end.

Fixpoint insert (r : row) (l : DataFrame) : DataFrame :=
  match l with
  | [] => [r]
  | x :: l' => if key r <=? key x then r :: l else x :: insert r l'
  end.

Fixpoint argsort (l : DataFrame) : DataFrame :=
  match l with
  | [] => []
  | r :: l' => insert r (argsort l')
  end.

Definition sort_values (df : DataFrame) : DataFrame :=
  (argsort (filter notna df) ++ filter isna df)%list.

(** ** [column.astype(float)] *)
Definition to_float (c : cell) : outcome pyfloat :=
  match c with
  | CStr s =>
      match float_of_string s with
      | Some x => Ok x
      | None => Raise (ValueError ("could not convert string to float: '" ++ s ++ "'"))
      end
  | CNull => Ok NaN
  | CNum x => Ok x
  end.

Definition set_value (r : row) (c : cell) : row :=
  mkRow (year r) (period r) (periodName r) c (date r).

Definition set_date (r : row) (d : datetime) : row :=
  mkRow (year r) (period r) (periodName r) (value r) (Some d).

Fixpoint astype_float (df : DataFrame) : outcome DataFrame :=
  match df with
  | [] => Ok []
  | r :: df' =>
      match to_float (value r) with
      | Raise e => Raise e
      | Ok x =>
          match astype_float df' with
          | Raise e => Raise e
          | Ok t => Ok (set_value r (CNum x) :: t)
          end
      end
  end.

(* ================================================================== *)
(** * The class [APIbureau] *)

(** ** [__clean_dataframe] (lines 103-107).  A frame without columns has
    no [year] to read. *)
Definition derived_date (r : row) : datetime :=
  to_datetime (year r ++ "-" ++ str_from_1 (period r)).

Definition clean_dataframe (df : DataFrame) : outcome DataFrame :=
  match df with
  | [] => Raise (KeyError "year")
  | _ :: _ =>
      let df := map (fun r => set_date r (derived_date r)) df in
      let df := sort_values df in
      astype_float df
  end.

(** ** [__save_dataframe] (lines 83-101) *)
Definition save_dataframe (df : DataFrame) (file_extension name : string) : M unit :=
  if String.eqb file_extension "xlsx" then
    write (mkFile (name ++ ".xlsx") Excel df)
  else if String.eqb file_extension "csv" then
    write (mkFile (name ++ ".csv") (Csv ",") df)
  else if String.eqb file_extension "txt" then
    write (mkFile (name ++ ".txt") (Csv ";") df)
  else
    print [PStr ("Unsupported format '" ++ file_extension ++ "'. Defaulting to 'xlsx'.")] ;;;
    write (mkFile (name ++ ".xlsx") Excel df).

(** ** [PlotSeries.plot_series_cpi] (lines 166-176) *)
Definition str (z : Z) : string := NilZero.string_of_int (Z.to_int z).

Fixpoint replace_underscore (s : string) : string :=
  match s with
  | EmptyString => EmptyString
  | String c s' =>
      String (if Ascii.eqb c "_" then " "%char else c) (replace_underscore s')
  end.

Definition plot_series_cpi (df : DataFrame) (start_year end_year : Z) (name : string)
  : figure :=
  mkFigure (replace_underscore name ++ " | " ++ str start_year ++ " - " ++ str end_year)
           (map date df) (map value df).

Section Upstream.

(** The service, as the answers it gives to the successive requests: the
    request posted after [n] others receives [upstream n]. *)
Variable upstream : nat -> response.

Definition post (p : payload) : M response :=
  fun s =>
    (Ok (upstream (List.length (sent s))),
     mkSt (sent s ++ [p])%list (stdout s) (files s) (shown s)).

(** ** [__generic_request] (lines 13-52): lines 43-52 first, then the whole. *)
Definition read_response (response : response) : M (DataFrame * Z) :=
  if status_code response =? 200 then
    data <- decode response ;;
    status <- getitem "status" (b_status data) ;;
    if String.eqb status "REQUEST_SUCCEEDED" then
      Results <- getitem "Results" (b_Results data) ;;
      all_series <- getitem "series" (r_series Results) ;;
      series0 <- first all_series ;;
      records <- getitem "data" (s_data series0) ;;
      ret (from_records records, status_code response)
    else
      message <- getitem "message" (b_message data) ;;
      print [PStr "Request failed: "; PList message] ;;;
      ret ([], status_code response)
  else
    print [PStr "HTTP error: "; PInt (status_code response)] ;;;
    ret ([], status_code response).

Definition generic_request (series_id : string) (start_year end_year : Z)
  : M (DataFrame * Z) :=
  response <- post (mkPayload [series_id] start_year end_year) ;;
  read_response response.

(** ** [__single_series] (lines 54-81).  The [for] loop runs [n] more
    times; [status] is unbound until the first pass. *)
Definition integrity_error : exn :=
  ValueError "Empty Datarfame, not by bad Request".

Fixpoint for_loop (n : nat) (start_year end_year : Z) (ticker : string)
         (list_df : list DataFrame) (status : option Z)
  : M (list DataFrame * option Z) :=
  match n with
  | O => ret (list_df, status)
  | S n' =>
      '(df, status) <- generic_request ticker start_year end_year ;;
      if empty df && (status =? 200) then raise integrity_error
      else for_loop n' (start_year + 10) end_year ticker (list_df ++ [df])%list (Some status)
  end.

(** [int((end_year - start_year)/10) + 1]: [int] truncates the float
    quotient, which on differences of years gives the integer quotient. *)
Definition passes (start_year end_year : Z) : nat :=
  Z.to_nat (Z.quot (end_year - start_year) 10 + 1).

Definition single_series (start_year end_year : Z) (ticker : string)
  : M (DataFrame * Z) :=
  if end_year - start_year >? 10 then
    '(list_df, status) <- for_loop (passes start_year end_year)
                                   start_year end_year ticker [] None ;;
    df <- lift (pd_concat list_df) ;;
    status <- match status with
              | Some st => ret st
              | None => raise (UnboundLocalError "status")
              end ;;
    ret (df, status)
  else
    generic_request ticker start_year end_year.

(** ** [process_cpi_series] (lines 109-128) *)
Definition process_cpi_series (start_year end_year : Z)
           (ticker output_filename plot_title format : string) (plot : bool)
  : M unit :=
  '(df, status) <- single_series start_year end_year ticker ;;
  if empty df && (status =? 200) then raise integrity_error
  else
    df <- lift (clean_dataframe df) ;;
    save_dataframe df format output_filename ;;;
    if plot then show (plot_series_cpi df start_year end_year plot_title)
    else ret tt.

End Upstream.

(* ================================================================== *)
(** * Vocabulary of the properties *)

(** A [value] cell that [astype(float)] rejects: a string that is not a
    float literal. *)
Definition non_numeric_string (r : row) : Prop :=
  exists s, value r = CStr s /\ float_of_string s = None.

(** A cell is numeric when it is a float or the literal of one; it is
    empty when it is missing or the empty string. *)
Definition numeric (c : cell) : Prop :=
  (exists x, c = CNum x) \/ (exists s x, c = CStr s /\ float_of_string s = Some x).

Definition empty_value (c : cell) : Prop := c = CNull \/ c = CStr "".

(** Ascending order of the [date] column with the null dates last. *)
Definition chron_le (d1 d2 : option datetime) : Prop :=
  match d1, d2 with
  | Some (Month y1 m1), Some (Month y2 m2) => y1 < y2 \/ (y1 = y2 /\ m1 <= m2)
  | _, Some (Month _ _) => False
  | _, _ => True
  end.

Definition sorted_by_date (df : DataFrame) : Prop :=
  StronglySorted (fun a b => chron_le (date a) (date b)) df.

(** The columns the Cleaner does not touch. *)
Definition untouched (r : row) : string * string * string :=
  (year r, period r, periodName r).

(** A row with its date derived from its year and period. *)
Definition dated (r : row) : row := set_date r (derived_date r).

(** The order [argsort] works by. *)
Definition key_sorted : DataFrame -> Prop :=
  StronglySorted (fun a b => key a <= key b).

(** What [astype(float)] makes of a row it accepts. *)
Definition coerce (r : row) : row :=
  match to_float (value r) with
  | Ok x => set_value r (CNum x)
  | Raise _ => r
  end.

(** Months as [to_datetime] yields them. *)
Definition valid_month (r : row) : Prop :=
  match date r with
  | Some (Month _ m) => 1 <= m <= 12
  | _ => True
  end.

(** Whether [astype(float)] accepts the value of a row. *)
Definition accepted (r : row) : bool :=
  match to_float (value r) with
  | Ok _ => true
  | Raise _ => false
  end.

(** What the Executor returns on a given answer (lines 43-52). *)
Definition result_of (r : response) : outcome (DataFrame * Z) :=
  fst (read_response r init).

(* ================================================================== *)
(** * Sample answers and frames *)

Definition january (y v : string) : observation :=
  mkObs y "M01" "January" (CStr v).

Definition succeeded (data : list observation) : response :=
  mkResponse 200
    (Some (mkBody (Some "REQUEST_SUCCEEDED") (Some [])
                  (Some (mkResults (Some [mkSeries (Some data)]))))).

Definition refused : response :=
  mkResponse 200
    (Some (mkBody (Some "REQUEST_NOT_PROCESSED")
                  (Some ["Series id is not valid"]) (Some (mkResults None)))).

Definition refused_without_message : response :=
  mkResponse 200 (Some (mkBody (Some "REQUEST_NOT_PROCESSED") None None)).

(** A service with data for every request, one that succeeds with no
    rows, one that refuses, and one that is down for the second request. *)
Definition always_data (n : nat) : response := succeeded [january "2000" "168.8"].

Definition no_rows (n : nat) : response := succeeded [].

Definition always_refused (n : nat) : response := refused.

Definition gap (n : nat) : response :=
  match n with
  | 0%nat => succeeded [january "2000" "168.8"]
  | 1%nat => mkResponse 503 None
  | _ => succeeded [january "2020" "257.971"]
  end.

(** The frames the Executor gets out of a service, call by call. *)
Definition fetched (upstream : nat -> response) (i : nat) : DataFrame * Z :=
  match result_of (upstream i) with
  | Ok x => x
  | Raise _ => ([], 0)
  end.

Definition sample : DataFrame :=
  [ mkRow "2020" "M03" "March" (CStr "258.115") None;
    mkRow "2020" "M13" "Annual" (CStr "258.811") None;
    mkRow "2019" "M12" "December" CNull None;
    mkRow "2020" "M01" "January" (CStr "257.971") None ].

Definition sample_cleaned : DataFrame :=
  [ mkRow "2019" "M12" "December" (CNum NaN) (Some (Month 2019 12));
    mkRow "2020" "M01" "January" (CNum (Fin 257971 (-3))) (Some (Month 2020 1));
    mkRow "2020" "M03" "March" (CNum (Fin 258115 (-3))) (Some (Month 2020 3));
    mkRow "2020" "M13" "Annual" (CNum (Fin 258811 (-3))) (Some NaT) ].

Definition blank_value : DataFrame :=
  [ mkRow "2020" "M01" "January" (CStr "") None ].

(** ** The windows as the specification words them: ceil(span/10) of
    them, each of at most ten years, the first starting at [start_year],
    each next one starting ten years on and after the end of the one
    before, the last ending at [end_year]. *)
Definition ceil_div (a b : Z) : Z := (a + b - 1) / b.

Fixpoint consecutive (ws : list (Z * Z)) : Prop :=
  match ws with
  | w1 :: rest =>
      match rest with
      | w2 :: _ => fst w2 = fst w1 + 10 /\ snd w1 < fst w2
      | [] => True
      end /\ consecutive rest
  | [] => True
  end.

Definition partitions (start_year end_year : Z) (ws : list (Z * Z)) : Prop :=
  Z.of_nat (List.length ws) = ceil_div (end_year - start_year) 10 /\
  Forall (fun w => snd w - fst w <= 10) ws /\
  consecutive ws /\
  (exists w rest, ws = w :: rest /\ fst w = start_year) /\
  (exists w front, ws = (front ++ [w])%list /\ snd w = end_year).

Definition requested (ps : list payload) : list (Z * Z) :=
  map (fun p => (startyear p, endyear p)) ps.

(** The windows the Splitter asks for on the span 2000 to 2020. *)
Definition windows_2000_2020 : list (Z * Z) :=
  requested (sent (snd (single_series always_data 2000 2020 "CUSR0000SA0" init))).

(* ================================================================== *)
(** * The catalog of series (lines 130-158) *)

Section Catalog.

Variable upstream : nat -> response.

Definition cpi_all_items (start_year end_year : Z) (format : string) (plot : bool)
  : M unit :=
  process_cpi_series upstream start_year end_year "CUSR0000SA0"
    ("CPI_ALL_ITEMS_" ++ str start_year ++ "_" ++ str end_year)
    "CPI_ALL_ITEMS" format plot.

Definition cpi_all_items_less_food_energy (start_year end_year : Z) (format : string)
           (plot : bool) : M unit :=
  process_cpi_series upstream start_year end_year "CUSR0000SA0L1E"
    ("CPI_ALL_ITEMS_LESS_FOOD_ENERGY_" ++ str start_year ++ "_" ++ str end_year)
    "CPI_ALL_ITEMS_LESS_FOOD_ENERGY" format plot.

Definition cpi_food (start_year end_year : Z) (format : string) (plot : bool)
  : M unit :=
  process_cpi_series upstream start_year end_year "CUSR0000SAF1"
    ("CPI_FOOD_" ++ str start_year ++ "_" ++ str end_year)
    "CPI_FOOD" format plot.

Definition cpi_energy (start_year end_year : Z) (format : string) (plot : bool)
  : M unit :=
  process_cpi_series upstream start_year end_year "CUSR0000SA0E"
    ("CPI_ENERGY_" ++ str start_year ++ "_" ++ str end_year)
    "CPI_ENERGY" format plot.

Definition cpi_apparel (start_year end_year : Z) (format : string) (plot : bool)
  : M unit :=
  process_cpi_series upstream start_year end_year "CUSR0000SAA"
    ("CPI_APPAREL_" ++ str start_year ++ "_" ++ str end_year)
    "CPI_APPAREL" format plot.

Definition cpi_education_communication (start_year end_year : Z) (format : string)
           (plot : bool) : M unit :=
  process_cpi_series upstream start_year end_year "CUSR0000SAE"
    ("CPI_EDUCATION_COMMUNICATION_" ++ str start_year ++ "_" ++ str end_year)
    "CPI_EDUCATION_COMMUNICATION" format plot.

Definition cpi_other_goods_services (start_year end_year : Z) (format : string)
           (plot : bool) : M unit :=
  process_cpi_series upstream start_year end_year "CUSR0000SAG"
    ("CPI_OTHER_GOODS_SERVICES_" ++ str start_year ++ "_" ++ str end_year)
    "CPI_OTHER_GOODS_SERVICES" format plot.

Definition cpi_medical_care (start_year end_year : Z) (format : string) (plot : bool)
  : M unit :=
  process_cpi_series upstream start_year end_year "CUSR0000SAM"
    ("CPI_MEDICAL_CARE_" ++ str start_year ++ "_" ++ str end_year)
    "CPI_MEDICAL_CARE" format plot.

Definition cpi_recreation (start_year end_year : Z) (format : string) (plot : bool)
  : M unit :=
  process_cpi_series upstream start_year end_year "CUSR0000SAR"
    ("CPI_RECREATION_" ++ str start_year ++ "_" ++ str end_year)
    "CPI_RECREATION" format plot.

Definition cpi_transportation (start_year end_year : Z) (format : string) (plot : bool)
  : M unit :=
  process_cpi_series upstream start_year end_year "CUSR0000SAT"
    ("CPI_TRANSPORTATION_" ++ str start_year ++ "_" ++ str end_year)
    "CPI_TRANSPORTATION" format plot.

(** The ten accessors, each with the series id and the name it stands for. *)
Definition catalog
  : list (string * string * (Z -> Z -> string -> bool -> M unit)) :=
  [ ("CUSR0000SA0", "CPI_ALL_ITEMS", cpi_all_items);
    ("CUSR0000SA0L1E", "CPI_ALL_ITEMS_LESS_FOOD_ENERGY", cpi_all_items_less_food_energy);
    ("CUSR0000SAF1", "CPI_FOOD", cpi_food);
    ("CUSR0000SA0E", "CPI_ENERGY", cpi_energy);
    ("CUSR0000SAA", "CPI_APPAREL", cpi_apparel);
    ("CUSR0000SAE", "CPI_EDUCATION_COMMUNICATION", cpi_education_communication);
    ("CUSR0000SAG", "CPI_OTHER_GOODS_SERVICES", cpi_other_goods_services);
    ("CUSR0000SAM", "CPI_MEDICAL_CARE", cpi_medical_care);
    ("CUSR0000SAR", "CPI_RECREATION", cpi_recreation);
    ("CUSR0000SAT", "CPI_TRANSPORTATION", cpi_transportation) ].

End Catalog.

(** The names of the catalog. *)
Definition names : list string :=
  [ "CPI_ALL_ITEMS"; "CPI_ALL_ITEMS_LESS_FOOD_ENERGY"; "CPI_FOOD"; "CPI_ENERGY";
    "CPI_APPAREL"; "CPI_EDUCATION_COMMUNICATION"; "CPI_OTHER_GOODS_SERVICES";
    "CPI_MEDICAL_CARE"; "CPI_RECREATION"; "CPI_TRANSPORTATION" ].

(** The output name an accessor builds. *)
Definition output_name (name : string) (start_year end_year : Z) : string :=
  name ++ "_" ++ str start_year ++ "_" ++ str end_year.

(* ================================================================== *)
(** * [scrapper_release.py]

    The browser and the page are outside; what is given is the list of
    tables that [pd.read_html(html, attrs={'id': 'cpipress2'})] finds in
    the page, each one the list of its rows.  [read_html] raises when it
    finds none.  The result is the path written and the rows written. *)
Definition read_html {R : Type} (found : list (list R)) : outcome (list (list R)) :=
  match found with
  | [] => Raise (ValueError "No tables found")
  | _ :: _ => Ok found
  end.

Definition scrapper_release {R : Type} (found : list (list R))
  : outcome (string * list R) :=
  match read_html found with
  | Raise e => Raise e
  | Ok tables =>
      match tables with
      | [] => Raise IndexError
      | t :: _ => Ok ("CPI_NEWS_RELEASE.xlsx", removelast t)
      end
  end.

(* ================================================================== *)
(** * Vocabulary of the further properties *)

(** The request of pass [i] of the Splitter. *)
Definition window (ticker : string) (start_year end_year : Z) (i : nat) : payload :=
  mkPayload [ticker] (start_year + 10 * Z.of_nat i) end_year.

(** The extension and the kind of file the Writer settles on. *)
Definition extension (file_extension : string) : string :=
  if String.eqb file_extension "csv" then "csv"
  else if String.eqb file_extension "txt" then "txt"
  else "xlsx".

Definition kind (file_extension : string) : file_format :=
  if String.eqb file_extension "csv" then Csv ","
  else if String.eqb file_extension "txt" then Csv ";"
  else Excel.

(** A character of a decimal numeral: a digit or the sign. *)
Definition numeral_char (c : ascii) : bool := is_digit c || Ascii.eqb c "-".

Fixpoint all_chars (p : ascii -> bool) (s : string) : bool :=
  match s with
  | EmptyString => true
  | String c s' => p c && all_chars p s'
  end.

(** Whether the year and the period of a row give no date. *)
Definition undated (r : row) : bool :=
  match derived_date r with
  | NaT => true
  | Month _ _ => false
  end.


(** The integers from [lo], [n] of them. *)
Definition Z_range (lo : Z) (n : nat) : list Z :=
  map (fun i => lo + Z.of_nat i) (seq 0 n).



(* ================================================================== *)
(** * The Cleaner over any sort

    [sort_values] is called without a [kind], and the default one,
    quicksort, is not stable: pandas promises the rows in ascending order
    of the key with the null keys last, and nothing on the order of rows
    with equal keys.  [sort_values_by] and [clean_dataframe_by] are
    [sort_values] and the Cleaner over whatever sort of the rows with a key
    is at work; [sort_values] and [clean_dataframe] above are the ones over
    [argsort]. *)
Definition sort_values_by (sorter : DataFrame -> DataFrame) (df : DataFrame)
  : DataFrame :=
  (sorter (filter notna df) ++ filter isna df)%list.

Definition clean_dataframe_by (sorter : DataFrame -> DataFrame) (df : DataFrame)
  : outcome DataFrame :=
  match df with
  | [] => Raise (KeyError "year")
  | _ :: _ =>
      let df := map (fun r => set_date r (derived_date r)) df in
      let df := sort_values_by sorter df in
      astype_float df
  end.

(** What a sort is held to: the same rows, in ascending order of the key. *)
Definition sorts (sorter : DataFrame -> DataFrame) : Prop :=
  forall l, Permutation (sorter l) l /\ key_sorted (sorter l).

(** A sort that leaves the rows of equal key in the reverse of the order
    they came in; and one that does so on more than sixteen rows only,
    keeping them in order on fewer, as the insertion sort does that
    numpy's quicksort hands short arrays to. *)
Definition reversing (l : DataFrame) : DataFrame := argsort (rev l).

Definition ties_reversed (l : DataFrame) : DataFrame :=
  if (List.length l <=? 16)%nat then argsort l else reversing l.

(** Seventeen observations of January 2020, told apart by their values. *)
Definition ties : DataFrame :=
  map (fun v => mkRow "2020" "M01" "January" (CStr (str v)) None) (Z_range 1 17).

(** Whether the dated rows of a frame have pairwise distinct dates. *)
Definition distinct_dates (df : DataFrame) : Prop :=
  NoDup (map derived_date (filter (fun r => negb (undated r)) df)).

(* ================================================================== *)
(** * The Cleaner *)

Lemma insert_perm (r : row) (l : DataFrame) : Permutation (insert r l) (r :: l).
Proof.
  induction l as [|x l IH]; simpl.
  - apply Permutation_refl.
  - destruct (key r <=? key x).
    + apply Permutation_refl.
    + eapply perm_trans; [apply perm_skip, IH | apply perm_swap].
Qed.

Lemma argsort_perm (l : DataFrame) : Permutation (argsort l) l.
Proof.
  induction l as [|r l IH]; simpl.
  - constructor.
  - eapply perm_trans; [apply insert_perm | now apply perm_skip].
Qed.

Lemma insert_sorted (r : row) (l : DataFrame) :
  key_sorted l -> key_sorted (insert r l).
Proof.
  unfold key_sorted. induction 1 as [|x l Hs IH Hx]; simpl.
  - repeat constructor.
  - destruct (key r <=? key x) eqn:E.
    + apply Z.leb_le in E. constructor.
      * now constructor.
      * constructor; [exact E|].
        eapply Forall_impl; [|exact Hx]. simpl. intros; lia.
    + apply Z.leb_gt in E. constructor; [exact IH|].
      eapply Permutation_Forall; [apply Permutation_sym, insert_perm|].
      constructor; [lia | exact Hx].
Qed.

Lemma argsort_sorted (l : DataFrame) : key_sorted (argsort l).
Proof.
  induction l as [|r l IH]; simpl.
  - constructor.
  - now apply insert_sorted.
Qed.

Lemma filter_all {A} (f : A -> bool) (l : list A) :
  Forall (fun x => f x = true) l -> filter f l = l.
Proof.
  induction 1 as [|x l Hx _ IH]; simpl; [reflexivity|].
  now rewrite Hx, IH.
Qed.

Lemma filter_none {A} (f : A -> bool) (l : list A) :
  Forall (fun x => f x = false) l -> filter f l = [].
Proof.
  induction 1 as [|x l Hx _ IH]; simpl; [reflexivity|].
  now rewrite Hx.
Qed.

Lemma filter_Forall {A} (f : A -> bool) (l : list A) :
  Forall (fun x => f x = true) (filter f l).
Proof.
  apply Forall_forall. intros x Hx. now apply filter_In in Hx.
Qed.

Lemma filter_split_perm {A} (f : A -> bool) (l : list A) :
  Permutation (filter f l ++ filter (fun x => negb (f x)) l) l.
Proof.
  induction l as [|x l IH]; simpl; [constructor|].
  destruct (f x); simpl.
  - now apply perm_skip.
  - eapply perm_trans; [apply Permutation_sym, Permutation_middle|].
    now apply perm_skip.
Qed.

Lemma sort_values_perm (df : DataFrame) : Permutation (sort_values df) df.
Proof.
  unfold sort_values.
  eapply perm_trans; [|apply (filter_split_perm notna)].
  apply Permutation_app; [apply argsort_perm | apply Permutation_refl].
Qed.

Lemma sort_values_length (df : DataFrame) :
  List.length (sort_values df) = List.length df.
Proof. apply Permutation_length, sort_values_perm. Qed.

Lemma notna_argsort (l : DataFrame) :
  Forall (fun r => notna r = true) (argsort (filter notna l)).
Proof.
  eapply Permutation_Forall; [apply Permutation_sym, argsort_perm|].
  apply filter_Forall.
Qed.

Lemma isna_filter (l : DataFrame) :
  Forall (fun r => notna r = false) (filter isna l).
Proof.
  eapply Forall_impl; [|apply (filter_Forall isna)].
  unfold isna. intros r H. now apply negb_true_iff in H.
Qed.

(** When the keys are pairwise distinct the order is forced: whatever
    arrangement of the rows is in order is the one [argsort] gives. *)
Lemma key_sorted_unique (l1 : DataFrame) :
  forall l2, key_sorted l1 -> key_sorted l2 -> Permutation l1 l2 ->
             NoDup (map key l1) -> l1 = l2.
Proof.
  unfold key_sorted. induction l1 as [|a l1 IH]; intros l2 H1 H2 HP HN.
  - now apply Permutation_nil in HP.
  - destruct l2 as [|b l2];
      [apply Permutation_sym, Permutation_nil in HP; discriminate|].
    apply StronglySorted_inv in H1 as [H1 Ha].
    apply StronglySorted_inv in H2 as [H2 Hb].
    inversion HN as [|? ? Hnotin HN']; subst.
    assert (Hab : a = b).
    { assert (Hin_b : In b (a :: l1))
        by (apply (Permutation_in _ (Permutation_sym HP)); now left).
      destruct Hin_b as [E|Hin_b]; [exact E|].
      assert (Hin_a : In a (b :: l2))
        by (apply (Permutation_in _ HP); now left).
      destruct Hin_a as [E|Hin_a]; [now symmetry|].
      pose proof (proj1 (Forall_forall _ _) Ha b Hin_b) as Hle1.
      pose proof (proj1 (Forall_forall _ _) Hb a Hin_a) as Hle2.
      cbn beta in Hle1, Hle2.
      exfalso. apply Hnotin. replace (key a) with (key b) by lia.
      now apply in_map. }
    subst b. f_equal. apply IH; auto.
    now apply Permutation_cons_inv in HP.
Qed.

Lemma argsort_unique (l out : DataFrame) :
  NoDup (map key l) -> Permutation out l -> key_sorted out -> out = argsort l.
Proof.
  intros HN HP Hs. apply key_sorted_unique; [exact Hs | apply argsort_sorted | |].
  - eapply perm_trans; [exact HP | apply Permutation_sym, argsort_perm].
  - eapply Permutation_NoDup; [|exact HN].
    apply Permutation_map, Permutation_sym, HP.
Qed.

(** Sorting looks at the [date] column only. *)
Lemma insert_map (f : row -> row) (r : row) (l : DataFrame) :
  (forall x, date (f x) = date x) ->
  insert (f r) (map f l) = map f (insert r l).
Proof.
  intros Hf. induction l as [|x l IH]; simpl; [reflexivity|].
  unfold key at 1 2. rewrite !Hf. fold (key r) (key x).
  destruct (key r <=? key x); simpl; [reflexivity | now rewrite IH].
Qed.

Lemma argsort_map (f : row -> row) (l : DataFrame) :
  (forall x, date (f x) = date x) ->
  argsort (map f l) = map f (argsort l).
Proof.
  intros Hf. induction l as [|x l IH]; simpl; [reflexivity|].
  rewrite IH. now apply insert_map.
Qed.

Lemma filter_map_comm {A} (p : A -> bool) (f : A -> A) (l : list A) :
  (forall x, p (f x) = p x) -> filter p (map f l) = map f (filter p l).
Proof.
  intros Hp. induction l as [|x l IH]; simpl; [reflexivity|].
  rewrite Hp. destruct (p x); simpl; now rewrite IH.
Qed.

Lemma sort_values_map (f : row -> row) (df : DataFrame) :
  (forall x, date (f x) = date x) ->
  sort_values (map f df) = map f (sort_values df).
Proof.
  intros Hf. unfold sort_values.
  assert (Hn : forall x, notna (f x) = notna x)
    by (intros x; unfold notna; now rewrite Hf).
  assert (Hi : forall x, isna (f x) = isna x)
    by (intros x; unfold isna; now rewrite Hn).
  rewrite !filter_map_comm by assumption.
  rewrite argsort_map by assumption. now rewrite map_app.
Qed.

(** ** Coercion of the [value] column *)

Lemma to_float_Raise (c : cell) (e : exn) :
  to_float c = Raise e ->
  exists s, c = CStr s /\ float_of_string s = None /\
            e = ValueError ("could not convert string to float: '" ++ s ++ "'").
Proof.
  destruct c as [s| |x]; simpl; try discriminate.
  destruct (float_of_string s) eqn:E; [discriminate|].
  intros [= <-]. now exists s.
Qed.

Lemma to_float_accepts (r : row) :
  ~ non_numeric_string r -> exists x, to_float (value r) = Ok x.
Proof.
  intros H. destruct (to_float (value r)) as [x|e] eqn:E; [now exists x|].
  apply to_float_Raise in E as (s & Hs & Hn & _).
  exfalso. apply H. now exists s.
Qed.

Lemma to_float_rejects (r : row) :
  non_numeric_string r -> exists msg, to_float (value r) = Raise (ValueError msg).
Proof.
  intros (s & Hs & Hn). rewrite Hs. simpl. rewrite Hn. eauto.
Qed.

Lemma astype_float_Ok (df t : DataFrame) :
  astype_float df = Ok t ->
  t = map coerce df /\ Forall (fun r => ~ non_numeric_string r) df.
Proof.
  revert t. induction df as [|r df IH]; simpl; intros t H.
  - injection H as <-. split; constructor.
  - unfold coerce at 1.
    destruct (to_float (value r)) as [x|e] eqn:E; [|discriminate].
    destruct (astype_float df) as [t'|e]; [|discriminate].
    injection H as <-. destruct (IH t' eq_refl) as [-> HF].
    split; [reflexivity|]. constructor; [|exact HF].
    intros Hbad. apply to_float_rejects in Hbad as [msg Hm]. congruence.
Qed.

Lemma astype_float_total (df : DataFrame) :
  Forall (fun r => ~ non_numeric_string r) df ->
  astype_float df = Ok (map coerce df).
Proof.
  induction 1 as [|r df Hr _ IH]; simpl; [reflexivity|].
  unfold coerce at 1.
  destruct (to_float_accepts r Hr) as [x ->]. now rewrite IH.
Qed.

Lemma astype_float_Raise (df : DataFrame) (e : exn) :
  astype_float df = Raise e ->
  (exists msg, e = ValueError msg) /\ Exists non_numeric_string df.
Proof.
  induction df as [|r df IH]; simpl; [discriminate|].
  destruct (to_float (value r)) as [x|e'] eqn:E.
  - destruct (astype_float df) as [t|e']; [discriminate|].
    intros [= <-]. destruct (IH eq_refl) as [Hm Hex].
    split; [exact Hm | now apply Exists_cons_tl].
  - intros [= <-]. apply to_float_Raise in E as (s & Hs & Hn & ->).
    split; [eauto|]. apply Exists_cons_hd. now exists s.
Qed.

Lemma astype_float_rejects (df : DataFrame) :
  Exists non_numeric_string df ->
  exists msg, astype_float df = Raise (ValueError msg).
Proof.
  induction df as [|r df IH]; intros H; [inversion H|]. simpl.
  destruct (to_float (value r)) as [x|e] eqn:E.
  - inversion H as [? ? Hr|? ? Ht]; subst.
    + apply to_float_rejects in Hr as [msg Hm]. congruence.
    + destruct (IH Ht) as [msg ->]. eauto.
  - apply to_float_Raise in E as (s & _ & _ & ->). eauto.
Qed.

(** A column of floats is left as it is. *)
Lemma coerce_float (r : row) : (exists x, value r = CNum x) -> coerce r = r.
Proof.
  intros [x Hx]. unfold coerce. rewrite Hx. simpl.
  destruct r; simpl in *. now subst.
Qed.

Lemma value_coerce (r : row) :
  ~ non_numeric_string r -> exists x, value (coerce r) = CNum x.
Proof.
  intros H. unfold coerce. destruct (to_float_accepts r H) as [x ->].
  now exists x.
Qed.

Lemma date_coerce (r : row) : date (coerce r) = date r.
Proof. unfold coerce. now destruct (to_float (value r)). Qed.

Lemma untouched_coerce (r : row) : untouched (coerce r) = untouched r.
Proof. unfold coerce. now destruct (to_float (value r)). Qed.

Lemma derived_date_coerce (r : row) : derived_date (coerce r) = derived_date r.
Proof. unfold coerce. now destruct (to_float (value r)). Qed.

Lemma dated_fixed (r : row) : date r = Some (derived_date r) -> dated r = r.
Proof.
  unfold dated, set_date. destruct r as [y p n v d]; simpl.
  now intros ->.
Qed.

(** ** The Cleaner as a whole *)

Lemma clean_dataframe_unfold (df : DataFrame) :
  df <> [] ->
  clean_dataframe df = astype_float (sort_values (map dated df)).
Proof. destruct df; [congruence | reflexivity]. Qed.

Lemma rejected_carried (df : DataFrame) :
  Exists non_numeric_string (sort_values (map dated df)) <->
  Exists non_numeric_string df.
Proof.
  rewrite !Exists_exists. split.
  - intros (r & Hin & Hr).
    apply (Permutation_in _ (sort_values_perm _)) in Hin.
    apply in_map_iff in Hin as (r0 & <- & Hin). now exists r0.
  - intros (r & Hin & Hr). exists (dated r). split; [|exact Hr].
    apply (Permutation_in _ (Permutation_sym (sort_values_perm _))).
    now apply in_map.
Qed.

Lemma accepted_carried (df : DataFrame) :
  Forall (fun r => ~ non_numeric_string r) df ->
  Forall (fun r => ~ non_numeric_string r) (sort_values (map dated df)).
Proof.
  intros H. apply Forall_Exists_neg. rewrite rejected_carried.
  now apply Forall_Exists_neg.
Qed.

(** The Cleaner returns exactly on the frames that have a row and no
    rejected value, and then with this frame. *)
Lemma clean_dataframe_Ok (df t : DataFrame) :
  clean_dataframe df = Ok t <->
  df <> [] /\ Forall (fun r => ~ non_numeric_string r) df /\
  t = map coerce (sort_values (map dated df)).
Proof.
  split.
  - intros H. assert (Hne : df <> []) by (intros ->; discriminate).
    rewrite clean_dataframe_unfold in H by assumption.
    apply astype_float_Ok in H as [-> HF]. repeat split; [assumption|].
    apply Forall_Exists_neg. rewrite <- rejected_carried.
    now apply Forall_Exists_neg.
  - intros (Hne & HF & ->). rewrite clean_dataframe_unfold by assumption.
    apply astype_float_total. now apply accepted_carried.
Qed.

(** ** The months that [to_datetime] yields *)

Lemma digit_val_range (a : ascii) :
  is_digit a = true ->
  0 <= digit_val a <= 9 /\ (Ascii.eqb a "0" = false -> 1 <= digit_val a).
Proof.
  destruct a as [[] [] [] [] [] [] [] []]; vm_compute;
    intuition (discriminate || auto).
Qed.

Lemma Some_eq {A} (a b : A) : Some a = Some b -> a = b.
Proof. congruence. Qed.

Lemma parse_month_range (l : list ascii) (m : Z) :
  parse_month l = Some m -> 1 <= m <= 12.
Proof.
  destruct l as [|a [|b [|c l]]]; unfold parse_month; try discriminate.
  - destruct (is_digit a) eqn:Da; cbn [andb negb]; [|discriminate].
    destruct (Ascii.eqb a "0") eqn:Za; cbn [andb negb]; [discriminate|].
    intros H. apply Some_eq in H.
    destruct (digit_val_range a Da) as [? H']. specialize (H' Za). lia.
  - destruct (is_digit b) eqn:Db.
    + destruct (digit_val_range b Db) as [Hr Hz].
      destruct (Ascii.eqb b "0") eqn:Zb; rewrite ?andb_true_r, ?andb_false_r;
        cbn [andb negb];
        destruct (Ascii.eqb a "1"); cbn [andb negb];
        destruct (digit_val b <=? 2) eqn:E2;
        try apply Z.leb_le in E2;
        destruct (Ascii.eqb a "0"); cbn [andb negb];
        try discriminate; intros H; apply Some_eq in H;
        try specialize (Hz eq_refl); lia.
    + rewrite !andb_false_r. cbn [andb]. discriminate.
Qed.

Lemma to_datetime_month (s : string) (y m : Z) :
  to_datetime s = Month y m -> 1 <= m <= 12.
Proof.
  unfold to_datetime, strptime_Ym.
  destruct (list_ascii_of_string s) as [|a [|b [|c [|d [|sep rest]]]]];
    try discriminate.
  destruct (is_digit a && is_digit b && is_digit c && is_digit d && Ascii.eqb sep "-");
    [|discriminate].
  destruct (parse_month rest) as [m'|] eqn:E; [|discriminate].
  destruct (in_bounds _ m'); [|discriminate].
  intros [= _ <-]. now apply parse_month_range in E.
Qed.





(** ** The dates the period codes give *)














(** ** Order of the cleaned frame *)

Lemma StronglySorted_app {A} (R : A -> A -> Prop) (l1 l2 : list A) :
  StronglySorted R l1 -> StronglySorted R l2 ->
  (forall a b, In a l1 -> In b l2 -> R a b) ->
  StronglySorted R (l1 ++ l2).
Proof.
  induction 1 as [|a l1 Hs IH Ha]; simpl; intros H2 Hc; [exact H2|].
  constructor.
  - apply IH; [exact H2|]. intros x b Hx Hb. apply Hc; [now right | exact Hb].
  - apply Forall_app. split; [exact Ha|].
    apply Forall_forall. intros b Hb. apply Hc; [now left | exact Hb].
Qed.

Lemma key_sorted_chron (l : DataFrame) :
  key_sorted l -> Forall (fun r => notna r = true) l -> Forall valid_month l ->
  sorted_by_date l.
Proof.
  unfold key_sorted, sorted_by_date.
  induction 1 as [|a l Hs IH Ha]; intros Hn Hv; [constructor|].
  inversion Hn as [|? ? Hna Hnl]; inversion Hv as [|? ? Hva Hvl]; subst.
  constructor; [now apply IH|].
  rewrite Forall_forall in *. intros b Hb.
  specialize (Ha b Hb). specialize (Hnl b Hb). specialize (Hvl b Hb).
  unfold key, notna, valid_month, chron_le, ordinal in *.
  destruct (date a) as [[|y1 m1]|]; try discriminate.
  destruct (date b) as [[|y2 m2]|]; try discriminate.
  lia.
Qed.

Lemma nulls_sorted (l : DataFrame) :
  Forall (fun r => notna r = false) l -> sorted_by_date l.
Proof.
  unfold sorted_by_date. induction 1 as [|a l Ha Hl IH]; constructor; [exact IH|].
  eapply Forall_impl; [|exact Hl]. intros b Hb.
  unfold notna, chron_le in *.
  destruct (date a) as [[|? ?]|]; destruct (date b) as [[|? ?]|];
    (exact I || discriminate).
Qed.

Lemma sort_values_sorted (df : DataFrame) :
  Forall valid_month df -> sorted_by_date (sort_values df).
Proof.
  intros Hv. unfold sort_values. apply StronglySorted_app.
  - apply key_sorted_chron; [apply argsort_sorted | apply notna_argsort |].
    eapply Permutation_Forall; [apply Permutation_sym, argsort_perm|].
    apply Forall_forall. intros r Hr. apply filter_In in Hr as [Hr _].
    now apply (proj1 (Forall_forall _ _) Hv).
  - apply nulls_sorted, isna_filter.
  - intros a b Ha Hb.
    apply (proj1 (Forall_forall _ _) (isna_filter df)) in Hb.
    unfold notna, chron_le in *.
    destruct (date a) as [[|? ?]|]; destruct (date b) as [[|? ?]|];
      (exact I || discriminate).
Qed.

Lemma sorted_by_date_map (f : row -> row) (l : DataFrame) :
  (forall x, date (f x) = date x) -> sorted_by_date l -> sorted_by_date (map f l).
Proof.
  intros Hf. unfold sorted_by_date.
  induction 1 as [|a l Hs IH Ha]; simpl; constructor; [exact IH|].
  apply Forall_map. eapply Forall_impl; [|exact Ha].
  intros b Hb. now rewrite !Hf.
Qed.

Lemma dated_valid (df : DataFrame) : Forall valid_month (map dated df).
Proof.
  apply Forall_map, Forall_forall. intros r _.
  unfold valid_month, dated. simpl.
  destruct (derived_date r) as [|y m] eqn:E; [exact I|].
  now apply to_datetime_month in E.
Qed.

(** ** Deciding the vocabulary on concrete frames *)

Lemma accepted_spec (r : row) : accepted r = true <-> ~ non_numeric_string r.
Proof.
  unfold accepted. split.
  - intros H Hbad. apply to_float_rejects in Hbad as [msg Hm].
    rewrite Hm in H. discriminate.
  - intros H. now destruct (to_float_accepts r H) as [x ->].
Qed.

Lemma all_accepted (df : DataFrame) :
  forallb accepted df = true -> Forall (fun r => ~ non_numeric_string r) df.
Proof.
  intros H. apply Forall_forall. intros r Hr. apply accepted_spec.
  now apply (proj1 (forallb_forall _ _) H).
Qed.

Lemma all_numeric_or_missing (df : DataFrame) :
  forallb accepted df = true ->
  Forall (fun r => numeric (value r) \/ value r = CNull) df.
Proof.
  intros H. apply Forall_forall. intros r Hr.
  apply (proj1 (forallb_forall _ _) H) in Hr. unfold accepted, numeric in *.
  destruct (value r) as [s| |x]; simpl in Hr; [|now right|left; left; now exists x].
  destruct (float_of_string s) as [x|] eqn:E; [|discriminate].
  left. right. now exists s, x.
Qed.

(** The rejected cells are those that are neither numeric nor missing. *)
Lemma non_numeric_string_iff (r : row) :
  non_numeric_string r <-> ~ numeric (value r) /\ value r <> CNull.
Proof.
  unfold non_numeric_string, numeric. split.
  - intros (s & Hs & Hn). rewrite Hs. split; [|discriminate].
    intros [[x Hx] | (s' & x & Hs' & Hx)]; [discriminate|].
    injection Hs' as <-. congruence.
  - intros [Hnum Hnull]. destruct (value r) as [s| |x].
    + exists s. split; [reflexivity|].
      destruct (float_of_string s) as [x|] eqn:E; [|reflexivity].
      exfalso. apply Hnum. right. now exists s, x.
    + congruence.
    + exfalso. apply Hnum. left. now exists x.
Qed.

Lemma clean_dataframe_floats (df t : DataFrame) :
  clean_dataframe df = Ok t -> Forall (fun r => exists x, value r = CNum x) t.
Proof.
  intros H. apply clean_dataframe_Ok in H as (_ & HF & ->).
  apply Forall_map. eapply Forall_impl; [|apply (accepted_carried df HF)].
  intros r. apply value_coerce.
Qed.

Lemma clean_dataframe_length (df t : DataFrame) :
  clean_dataframe df = Ok t -> List.length t = List.length df.
Proof.
  intros H. apply clean_dataframe_Ok in H as (_ & _ & ->).
  now rewrite length_map, sort_values_length, length_map.
Qed.

Lemma clean_dataframe_perm (df t : DataFrame) :
  clean_dataframe df = Ok t ->
  Permutation t (map (fun r => coerce (dated r)) df).
Proof.
  intros H. apply clean_dataframe_Ok in H as (_ & _ & ->).
  rewrite <- (map_map dated coerce). apply Permutation_map, sort_values_perm.
Qed.

(** ** The claims on the Cleaner *)


(** C7. Whatever frame the Cleaner returns is in ascending order of the
    derived date with the null dates last, and it holds every input row:
    the columns the Cleaner does not touch are those of the input,
    permuted.  The Cleaner does return as soon as the frame has a row and
    no rejected value. *)
Theorem clean_dataframe_sorted (df : DataFrame) :
  (forall t,
     clean_dataframe df = Ok t ->
     sorted_by_date t /\
     Forall (fun r => date r = Some (derived_date r)) t /\
     Permutation (map untouched t) (map untouched df) /\
     List.length t = List.length df) /\
  (df <> [] -> Forall (fun r => ~ non_numeric_string r) df ->
   exists t, clean_dataframe df = Ok t).
Proof.
  split.
  - intros t H. pose proof (clean_dataframe_perm _ _ H) as HP.
    pose proof (clean_dataframe_length _ _ H) as HL.
    apply clean_dataframe_Ok in H as (_ & _ & ->).
    split; [|split; [|split]].
    + apply sorted_by_date_map; [apply date_coerce|].
      apply sort_values_sorted, dated_valid.
    + eapply Permutation_Forall; [apply Permutation_sym, HP|].
      apply Forall_map, Forall_forall. intros r _.
      rewrite date_coerce, derived_date_coerce. reflexivity.
    + eapply perm_trans; [apply Permutation_map, HP|].
      rewrite map_map. erewrite map_ext; [apply Permutation_refl|].
      intros r. now rewrite untouched_coerce.
    + exact HL.
  - intros Hne HF. eexists. apply clean_dataframe_Ok; eauto.
Qed.

(** C9, as the code has it.  The Cleaner turns the value column into
    floats and raises a ValueError exactly when some value is a string
    that is not a float literal, that is, neither numeric nor missing;
    the empty string is such a string.  A frame whose values are all
    numeric or missing is cleaned without a ValueError, and if it has a
    row it is returned with every value a float. *)
Theorem clean_dataframe_raises_iff (df : DataFrame) :
  ((exists msg, clean_dataframe df = Raise (ValueError msg)) <->
   Exists (fun r => ~ numeric (value r) /\ value r <> CNull) df) /\
  (Forall (fun r => numeric (value r) \/ value r = CNull) df ->
   (forall msg, clean_dataframe df <> Raise (ValueError msg)) /\
   (df <> [] ->
    exists t, clean_dataframe df = Ok t /\
              Forall (fun r => exists x, value r = CNum x) t)).
Proof.
  assert (Hiff : (exists msg, clean_dataframe df = Raise (ValueError msg)) <->
                 Exists (fun r => ~ numeric (value r) /\ value r <> CNull) df).
  { split.
    - intros [msg H]. destruct df as [|r df]; [discriminate|].
      rewrite clean_dataframe_unfold in H by discriminate.
      apply astype_float_Raise in H as [_ H].
      apply (proj1 (rejected_carried _)) in H.
      eapply Exists_impl; [|exact H]. intros x. apply non_numeric_string_iff.
    - intros H. assert (Hne : df <> []) by (intros ->; inversion H).
      rewrite clean_dataframe_unfold by assumption.
      apply astype_float_rejects. apply (proj2 (rejected_carried _)).
      eapply Exists_impl; [|exact H]. intros x. apply non_numeric_string_iff. }
  split; [exact Hiff|].
  intros HF.
  assert (HF' : Forall (fun r => ~ non_numeric_string r) df).
  { eapply Forall_impl; [|exact HF]. intros r Hr Hbad.
    apply non_numeric_string_iff in Hbad as [Hn Hz].
    destruct Hr as [Hr | Hr]; [exact (Hn Hr) | exact (Hz Hr)]. }
  split.
  - intros msg H.
    assert (Hex : Exists (fun r => ~ numeric (value r) /\ value r <> CNull) df)
      by (apply Hiff; now exists msg).
    apply Exists_exists in Hex as (r & Hin & Hn & Hz).
    destruct (proj1 (Forall_forall _ _) HF r Hin) as [Hr | Hr];
      [exact (Hn Hr) | exact (Hz Hr)].
  - intros Hne.
    assert (H : clean_dataframe df = Ok (map coerce (sort_values (map dated df))))
      by (apply clean_dataframe_Ok; auto).
    eexists. split; [exact H | exact (clean_dataframe_floats _ _ H)].
Qed.

(* ================================================================== *)
(** * The Request Executor *)

Ltac run_monad :=
  cbv beta delta [bind ret raise lift getitem decode first print write show];
  repeat (cbn beta iota zeta delta [fst snd sent stdout files shown];
          match goal with
          | |- context [if ?c then _ else _] => destruct c
          | |- context [match ?x with Some _ => _ | None => _ end] => destruct x
          | |- context [match ?x with [] => _ | _ :: _ => _ end] => destruct x
          end);
  cbn beta iota zeta delta [fst snd sent stdout files shown].

Lemma read_response_run (r : response) (s : St) :
  fst (read_response r s) = result_of r /\
  sent (snd (read_response r s)) = sent s /\
  files (snd (read_response r s)) = files s /\
  shown (snd (read_response r s)) = shown s.
Proof.
  unfold result_of, read_response. run_monad; auto.
Qed.

Section Splitter.

Variable upstream : nat -> response.

Lemma generic_request_run (series_id : string) (start_year end_year : Z) (s : St) :
  generic_request upstream series_id start_year end_year s =
  read_response (upstream (List.length (sent s)))
    (mkSt (sent s ++ [mkPayload [series_id] start_year end_year])%list
          (stdout s) (files s) (shown s)).
Proof. reflexivity. Qed.

Lemma generic_request_spec (series_id : string) (start_year end_year : Z) (s : St) :
  exists s',
    generic_request upstream series_id start_year end_year s =
      (result_of (upstream (List.length (sent s))), s') /\
    sent s' = (sent s ++ [mkPayload [series_id] start_year end_year])%list /\
    files s' = files s /\ shown s' = shown s.
Proof.
  rewrite generic_request_run.
  match goal with |- context [read_response ?r ?s1] =>
    destruct (read_response_run r s1) as (H1 & H2 & H3 & H4);
    destruct (read_response r s1) as [o s'] end.
  simpl in *. exists s'. subst o. auto.
Qed.

Lemma guard_false (df : DataFrame) (status : Z) :
  ~ (df = [] /\ status = 200) -> empty df && (status =? 200) = false.
Proof.
  intros H. destruct df; simpl; [|reflexivity].
  destruct (Z.eqb_spec status 200); [|reflexivity].
  exfalso. now apply H.
Qed.

(** ** The loop of the Splitter *)

(** When every pass gets a frame back and none is empty with status 200,
    the loop collects the frames in order, keeps the status of the last
    pass and has posted one request per pass, ten years apart, all of
    them up to [end_year]. *)
Lemma for_loop_ok (n : nat) :
  forall (start_year end_year : Z) (ticker : string) (list_df : list DataFrame)
         (status : option Z) (s : St) (res : nat -> DataFrame * Z),
    (forall i, (i < n)%nat ->
       result_of (upstream (List.length (sent s) + i)) = Ok (res i) /\
       ~ (fst (res i) = [] /\ snd (res i) = 200)) ->
    exists s',
      for_loop upstream n start_year end_year ticker list_df status s =
        (Ok ((list_df ++ map (fun i => fst (res i)) (seq 0 n))%list,
             match n with O => status | S k => Some (snd (res k)) end), s') /\
      sent s' = (sent s ++
                 map (fun i => mkPayload [ticker] (start_year + 10 * Z.of_nat i) end_year)
                     (seq 0 n))%list /\
      files s' = files s /\ shown s' = shown s.
Proof.
  induction n as [|n IH]; intros start_year end_year ticker list_df status s res H.
  - exists s. simpl. now rewrite !app_nil_r.
  - destruct (generic_request_spec ticker start_year end_year s)
      as (s1 & Hrun & Hsent & Hfiles & Hshown).
    destruct (H 0%nat ltac:(lia)) as [H0 Hg]. rewrite Nat.add_0_r in H0.
    destruct (res 0%nat) as [df0 st0] eqn:E0. simpl in Hg.
    destruct (IH (start_year + 10) end_year ticker (list_df ++ [df0])%list
                 (Some st0) s1 (fun i => res (S i))) as (s' & Hloop & Hs' & Hf' & Hsh').
    { intros i Hi. rewrite Hsent, length_app. simpl.
      replace (List.length (sent s) + 1 + i)%nat with (List.length (sent s) + S i)%nat by lia.
      apply H. lia. }
    exists s'. split; [|split; [|split]].
    + cbn [for_loop]. unfold bind at 1. rewrite Hrun, H0.
      rewrite (guard_false _ _ Hg). rewrite Hloop.
      assert (Hl : ((list_df ++ [df0]) ++ map (fun i => fst (res (S i))) (seq 0 n)
                    = list_df ++ map (fun i => fst (res i)) (seq 0 (S n)))%list).
      { cbn [seq map]. rewrite E0. cbn [fst]. rewrite <- app_assoc. cbn [app].
        now rewrite <- seq_shift, map_map. }
      assert (Hst : match n with
                    | O => Some st0
                    | S k => Some (snd (res (S k)))
                    end = Some (snd (res n))).
      { destruct n; [now rewrite E0 | reflexivity]. }
      now rewrite Hl, Hst.
    + rewrite Hs', Hsent. cbn [seq map]. rewrite <- app_assoc. cbn [app].
      f_equal. f_equal; [f_equal; lia|].
      rewrite <- seq_shift, map_map. apply map_ext. intros i. f_equal. lia.
    + congruence.
    + congruence.
Qed.

(** Whatever the answers, the loop writes no file and shows no figure,
    and a pass that gets an empty frame with status 200 ends it with the
    integrity error. *)
Lemma for_loop_guard (n : nat) :
  forall (start_year end_year : Z) (ticker : string) (list_df : list DataFrame)
         (status : option Z) (s s' : St) (o : outcome (list DataFrame * option Z)),
    for_loop upstream n start_year end_year ticker list_df status s = (o, s') ->
    files s' = files s /\ shown s' = shown s /\
    (List.length (sent s) <= List.length (sent s'))%nat /\
    forall i, (List.length (sent s) <= i < List.length (sent s'))%nat ->
              result_of (upstream i) = Ok ([], 200) ->
              o = Raise integrity_error.
Proof.
  induction n as [|n IH];
    intros start_year end_year ticker list_df status s s' o Hloop.
  - injection Hloop as <- <-. repeat split; auto. intros i Hi. lia.
  - destruct (generic_request_spec ticker start_year end_year s)
      as (s1 & Hrun & Hsent & Hfiles & Hshown).
    assert (Hlen : List.length (sent s1) = S (List.length (sent s)))
      by (rewrite Hsent, length_app; simpl; lia).
    cbn [for_loop] in Hloop. unfold bind at 1 in Hloop. rewrite Hrun in Hloop.
    destruct (result_of (upstream (List.length (sent s)))) as [[df st]|e] eqn:E.
    + destruct (empty df && (st =? 200)) eqn:G.
      * injection Hloop as <- <-. repeat split; auto; lia.
      * destruct (IH _ _ _ _ _ _ _ _ Hloop) as (Hf & Hsh & Hle & Hi).
        repeat split; try congruence; try lia.
        intros i Hr Hres.
        destruct (Nat.eq_dec i (List.length (sent s))) as [->|Hne].
        -- rewrite E in Hres. injection Hres as -> ->. discriminate.
        -- apply (Hi i); [lia | exact Hres].
    + injection Hloop as <- <-. repeat split; auto; try lia.
      intros i Hr Hres. assert (i = List.length (sent s)) as -> by lia. congruence.
Qed.

(** ** The Splitter *)

Lemma passes_eq (start_year end_year : Z) :
  end_year - start_year > 10 ->
  Z.of_nat (passes start_year end_year) = (end_year - start_year) / 10 + 1.
Proof.
  intros H. unfold passes.
  rewrite Z.quot_div_nonneg by lia.
  assert (0 <= (end_year - start_year) / 10) by (apply Z.div_pos; lia).
  lia.
Qed.

Lemma passes_ceil (start_year end_year : Z) :
  end_year - start_year > 10 ->
  Z.of_nat (passes start_year end_year) =
  ceil_div (end_year - start_year) 10
  + (if (end_year - start_year) mod 10 =? 0 then 1 else 0).
Proof.
  intros H. rewrite (passes_eq _ _ H). unfold ceil_div.
  set (span := end_year - start_year) in *.
  pose proof (Z.div_mod span 10 ltac:(lia)) as Hdm.
  pose proof (Z.mod_pos_bound span 10 ltac:(lia)) as Hb.
  destruct (Z.eqb_spec (span mod 10) 0) as [E|E].
  - assert (Hq : span / 10 = (span + 10 - 1) / 10)
      by (apply (Z.div_unique _ 10 _ 9); lia).
    lia.
  - assert (Hq : span / 10 + 1 = (span + 10 - 1) / 10)
      by (apply (Z.div_unique _ 10 _ (span mod 10 - 1)); lia).
    lia.
Qed.

Lemma passes_ge_2 (start_year end_year : Z) :
  end_year - start_year > 10 -> (2 <= passes start_year end_year)%nat.
Proof.
  intros H. pose proof (passes_eq _ _ H) as E.
  assert (1 <= (end_year - start_year) / 10)
    by (apply Z.div_le_lower_bound; lia).
  lia.
Qed.

Lemma single_series_short_run (start_year end_year : Z) (ticker : string) (s : St) :
  end_year - start_year <= 10 ->
  single_series upstream start_year end_year ticker s =
  generic_request upstream ticker start_year end_year s.
Proof.
  intros H. unfold single_series.
  destruct (Z.gtb_spec (end_year - start_year) 10); [lia | reflexivity].
Qed.

(** A span of more than ten years whose passes all get a frame back,
    none of them empty with status 200. *)
Lemma single_series_long_run (start_year end_year : Z) (ticker : string) (s : St)
      (res : nat -> DataFrame * Z) :
  end_year - start_year > 10 ->
  (forall i, (i < passes start_year end_year)%nat ->
     result_of (upstream (List.length (sent s) + i)) = Ok (res i) /\
     ~ (fst (res i) = [] /\ snd (res i) = 200)) ->
  exists s',
    single_series upstream start_year end_year ticker s =
      (Ok (List.concat (map (fun i => fst (res i)) (seq 0 (passes start_year end_year))),
           snd (res (Nat.pred (passes start_year end_year)))), s') /\
    sent s' = (sent s ++
               map (fun i => mkPayload [ticker] (start_year + 10 * Z.of_nat i) end_year)
                   (seq 0 (passes start_year end_year)))%list /\
    files s' = files s /\ shown s' = shown s.
Proof.
  intros Hspan H. pose proof (passes_ge_2 _ _ Hspan) as Hk.
  destruct (for_loop_ok (passes start_year end_year) start_year end_year ticker
                        [] None s res H) as (s' & Hloop & Hsent & Hf & Hsh).
  exists s'. split; [|auto].
  unfold single_series.
  destruct (Z.gtb_spec (end_year - start_year) 10); [|lia].
  unfold bind at 1. rewrite Hloop.
  destruct (passes start_year end_year) as [|k]; [lia|].
  reflexivity.
Qed.

Lemma single_series_guard (start_year end_year : Z) (ticker : string) (s s' : St)
      (o : outcome (DataFrame * Z)) :
  single_series upstream start_year end_year ticker s = (o, s') ->
  files s' = files s /\ shown s' = shown s /\
  (end_year - start_year > 10 ->
   forall i, (List.length (sent s) <= i < List.length (sent s'))%nat ->
             result_of (upstream i) = Ok ([], 200) ->
             o = Raise integrity_error) /\
  (end_year - start_year <= 10 ->
   o = result_of (upstream (List.length (sent s))) /\
   sent s' = (sent s ++ [mkPayload [ticker] start_year end_year])%list).
Proof.
  unfold single_series. intros H.
  destruct (Z.gtb_spec (end_year - start_year) 10) as [Hlong|Hshort].
  - unfold bind at 1 in H.
    destruct (for_loop upstream (passes start_year end_year) start_year end_year
                       ticker [] None s) as [o1 s1] eqn:Hloop.
    apply for_loop_guard in Hloop as (Hf & Hsh & Hle & Hi).
    assert (Hs : s' = s1 /\ (forall e, o1 = Raise e -> o = Raise e)).
    { destruct o1 as [[list_df status]|e].
      - unfold bind, lift, ret, raise in H.
        destruct list_df; destruct status; simpl in H;
          injection H as <- <-; split; auto; discriminate.
      - injection H as <- <-. split; [reflexivity|]. now intros e' [= ->]. }
    destruct Hs as [-> Hraise].
    split; [exact Hf|]. split; [exact Hsh|]. split; [|lia].
    intros _ i Hr Hres. apply Hraise. now apply (Hi i).
  - destruct (generic_request_spec ticker start_year end_year s)
      as (s1 & Hrun & Hsent & Hfiles & Hshown).
    rewrite Hrun in H. injection H as <- <-.
    split; [exact Hfiles|]. split; [exact Hshown|]. split; [lia | auto].
Qed.

(** An empty frame adds nothing to the concatenation. *)
Lemma concat_without (f : nat -> DataFrame) (j : nat) (l : list nat) :
  f j = [] ->
  List.concat (map f l) =
  List.concat (map f (filter (fun i => negb (Nat.eqb i j)) l)).
Proof.
  intros Hj. induction l as [|i l IH]; simpl; [reflexivity|].
  destruct (Nat.eqb_spec i j) as [->|_]; simpl.
  - now rewrite Hj.
  - now rewrite IH.
Qed.

(** ** The Writer *)

Lemma save_dataframe_writes (df : DataFrame) (file_extension name : string) (s : St) :
  exists f s',
    save_dataframe df file_extension name s = (Ok tt, s') /\
    files s' = (files s ++ [f])%list /\ content f = df /\
    sent s' = sent s /\ shown s' = shown s.
Proof.
  unfold save_dataframe.
  destruct (String.eqb file_extension "xlsx");
    [|destruct (String.eqb file_extension "csv");
      [|destruct (String.eqb file_extension "txt")]];
    eexists; eexists; (split; [reflexivity|]); simpl; auto.
Qed.

(** ** The facade *)

(** What [process_cpi_series] does once the Splitter is back. *)
Lemma process_cpi_series_cases (start_year end_year : Z)
      (ticker output_filename plot_title format : string) (plot : bool)
      (s s1 s' : St) (o1 : outcome (DataFrame * Z)) (o : outcome unit) :
  single_series upstream start_year end_year ticker s = (o1, s1) ->
  process_cpi_series upstream start_year end_year ticker output_filename
                     plot_title format plot s = (o, s') ->
  sent s' = sent s1 /\
  match o1 with
  | Raise e => o = Raise e /\ s' = s1
  | Ok (df, status) =>
      if empty df && (status =? 200) then o = Raise integrity_error /\ s' = s1
      else
        match clean_dataframe df with
        | Raise e => o = Raise e /\ s' = s1
        | Ok t =>
            o = Ok tt /\
            exists s2, save_dataframe t format output_filename s1 = (Ok tt, s2) /\
                       files s' = files s2
        end
  end.
Proof.
  intros H1 H. unfold process_cpi_series in H. unfold bind at 1 in H.
  rewrite H1 in H. destruct o1 as [[df status]|e].
  - destruct (empty df && (status =? 200)).
    + injection H as <- <-. auto.
    + unfold bind at 1, lift at 1 in H.
      destruct (clean_dataframe df) as [t|e].
      * unfold bind at 1 in H.
        destruct (save_dataframe_writes t format output_filename s1)
          as (f & s2 & Hsave & Hfiles & _ & Hsent & _).
        rewrite Hsave in H. destruct plot.
        -- injection H as <- <-. simpl. split; [exact Hsent|].
           split; [reflexivity|]. now exists s2.
        -- injection H as <- <-. split; [exact Hsent|].
           split; [reflexivity|]. now exists s2.
      * injection H as <- <-. auto.
  - injection H as <- <-. auto.
Qed.

(** ** The claims on the Executor, the Splitter, the Writer and the facade *)

(** C1, as the code has it.  On a span of more than ten years whose
    passes all get a frame back, none of them empty with status 200, the
    Splitter makes floor(span/10) + 1 calls of the Executor -- that is
    ceil(span/10) of them, and one more when the span is a multiple of
    ten -- one per pass, the first for a window starting at [start_year]
    and each next one ten years on, and returns the frames concatenated in
    call order with the status of the last call. *)
Theorem single_series_windows (start_year end_year : Z) (ticker : string) (s : St)
        (res : nat -> DataFrame * Z) :
  end_year - start_year > 10 ->
  (forall i, (i < passes start_year end_year)%nat ->
     result_of (upstream (List.length (sent s) + i)) = Ok (res i) /\
     ~ (fst (res i) = [] /\ snd (res i) = 200)) ->
  let k := passes start_year end_year in
  let run := single_series upstream start_year end_year ticker s in
  Z.of_nat k = (end_year - start_year) / 10 + 1 /\
  Z.of_nat k = ceil_div (end_year - start_year) 10
               + (if (end_year - start_year) mod 10 =? 0 then 1 else 0) /\
  fst run = Ok (List.concat (map (fun i => fst (res i)) (seq 0 k)),
                snd (res (Nat.pred k))) /\
  exists posted,
    sent (snd run) = (sent s ++ posted)%list /\
    List.length posted = k /\
    map startyear posted = map (fun i => start_year + 10 * Z.of_nat i) (seq 0 k) /\
    Forall (fun p => seriesid p = [ticker]) posted.
Proof.
  intros Hspan H k run. subst k run.
  destruct (single_series_long_run start_year end_year ticker s res Hspan H)
    as (s' & Hrun & Hsent & _).
  rewrite Hrun. cbn [fst snd].
  split; [now apply passes_eq|]. split; [now apply passes_ceil|].
  split; [reflexivity|].
  eexists. split; [exact Hsent|]. split; [|split].
  - now rewrite length_map, length_seq.
  - now rewrite map_map.
  - apply Forall_map, Forall_forall. intros i _. reflexivity.
Qed.

(** C2. On a span of at most ten years the Splitter is one call of the
    Executor for the whole span: one request is posted, for
    [start_year] to [end_year], and what the Executor makes of the answer
    is returned as it is. *)
Theorem single_series_one_request (start_year end_year : Z) (ticker : string) (s : St) :
  end_year - start_year <= 10 ->
  let run := single_series upstream start_year end_year ticker s in
  run = generic_request upstream ticker start_year end_year s /\
  sent (snd run) = (sent s ++ [mkPayload [ticker] start_year end_year])%list /\
  fst run = result_of (upstream (List.length (sent s))).
Proof.
  intros H run. subst run. rewrite (single_series_short_run _ _ _ _ H).
  destruct (generic_request_spec ticker start_year end_year s)
    as (s' & Hrun & Hsent & _).
  rewrite Hrun. auto.
Qed.

(** C3. A call of the Executor that returns an empty frame with status
    200 ends the operation with the integrity error: in the loop of the
    Splitter for any of its passes, and in the facade for any call made
    on its behalf, there with no file written and no figure shown. *)
Theorem empty_200_raises :
  (forall (start_year end_year : Z) (ticker : string) (s : St) (i : nat),
     end_year - start_year > 10 ->
     let run := single_series upstream start_year end_year ticker s in
     (List.length (sent s) <= i < List.length (sent (snd run)))%nat ->
     result_of (upstream i) = Ok ([], 200) ->
     fst run = Raise integrity_error) /\
  (forall (start_year end_year : Z)
          (ticker output_filename plot_title format : string) (plot : bool)
          (s : St) (i : nat),
     let run := process_cpi_series upstream start_year end_year ticker
                                   output_filename plot_title format plot s in
     (List.length (sent s) <= i < List.length (sent (snd run)))%nat ->
     result_of (upstream i) = Ok ([], 200) ->
     fst run = Raise integrity_error /\
     files (snd run) = files s /\ shown (snd run) = shown s).
Proof.
  split.
  - intros start_year end_year ticker s i Hspan run Hi Hres. subst run.
    destruct (single_series upstream start_year end_year ticker s) as [o s'] eqn:E.
    apply single_series_guard in E as (_ & _ & Hlong & _).
    now apply (Hlong Hspan i).
  - intros start_year end_year ticker output_filename plot_title format plot s i
           run Hi Hres. subst run.
    destruct (single_series upstream start_year end_year ticker s) as [o1 s1] eqn:E1.
    destruct (process_cpi_series upstream start_year end_year ticker output_filename
                                 plot_title format plot s) as [o s'] eqn:E.
    destruct (process_cpi_series_cases _ _ _ _ _ _ _ _ _ _ _ _ E1 E) as [Hsent Hcase].
    apply single_series_guard in E1 as (Hf & Hsh & Hlong & Hshort).
    cbn [fst snd] in *. rewrite Hsent in Hi.
    destruct (Z_gt_le_dec (end_year - start_year) 10) as [Hspan|Hspan].
    + rewrite (Hlong Hspan i Hi Hres) in Hcase. destruct Hcase as [-> ->]. auto.
    + destruct (Hshort Hspan) as [Ho1 Hs1]. rewrite Hs1, length_app in Hi.
      simpl in Hi. assert (i = List.length (sent s)) as -> by lia.
      rewrite Hres in Ho1. subst o1. cbn in Hcase. destruct Hcase as [-> ->]. auto.
Qed.

(** C4, as the code has it.  Every call posts one request.  An answer
    whose HTTP status is not 200 gives an empty frame and that status,
    after a line on standard output, whatever its body.  An answer with
    status 200 whose body carries a status other than REQUEST_SUCCEEDED
    and a message gives an empty frame and 200, after a line on standard
    output.  An answer with status 200 and REQUEST_SUCCEEDED whose body
    carries Results.series[0].data gives the rows of that data and 200,
    nothing printed. *)
Theorem generic_request_outcomes (series_id : string) (start_year end_year : Z) (s : St) :
  let r := upstream (List.length (sent s)) in
  let run := generic_request upstream series_id start_year end_year s in
  sent (snd run) = (sent s ++ [mkPayload [series_id] start_year end_year])%list /\
  files (snd run) = files s /\ shown (snd run) = shown s /\
  (status_code r <> 200 ->
   fst run = Ok ([], status_code r) /\
   stdout (snd run) = (stdout s ++ [[PStr "HTTP error: "; PInt (status_code r)]])%list) /\
  (forall data status message,
     status_code r = 200 -> json r = Some data ->
     b_status data = Some status -> status <> "REQUEST_SUCCEEDED" ->
     b_message data = Some message ->
     fst run = Ok ([], 200) /\
     stdout (snd run) = (stdout s ++ [[PStr "Request failed: "; PList message]])%list) /\
  (forall data Results series0 others records,
     status_code r = 200 -> json r = Some data ->
     b_status data = Some "REQUEST_SUCCEEDED" ->
     b_Results data = Some Results ->
     r_series Results = Some (series0 :: others) ->
     s_data series0 = Some records ->
     fst run = Ok (from_records records, 200) /\
     stdout (snd run) = stdout s).
Proof.
  intros r run. subst run. rewrite generic_request_run. fold r.
  match goal with |- context [read_response r ?s1] =>
    destruct (read_response_run r s1) as (_ & H2 & H3 & H4) end.
  split; [exact H2|]. split; [exact H3|]. split; [exact H4|]. clear H2 H3 H4.
  unfold read_response. split; [|split].
  - intros Hcode. apply Z.eqb_neq in Hcode. rewrite Hcode. auto.
  - intros data status message Hcode Hjson Hst Hne Hmsg.
    rewrite Hcode. cbn [Z.eqb Pos.eqb]. unfold bind at 1, decode. rewrite Hjson. cbn.
    unfold bind at 1. rewrite Hst. cbn.
    apply String.eqb_neq in Hne. rewrite Hne.
    unfold bind at 1. rewrite Hmsg. cbn. auto.
  - intros data Results series0 others records Hcode Hjson Hst Hres Hser Hdata.
    rewrite Hcode. cbn [Z.eqb Pos.eqb]. unfold bind at 1, decode. rewrite Hjson. cbn.
    unfold bind at 1. rewrite Hst. cbn.
    unfold bind at 1. rewrite Hres. cbn.
    unfold bind at 1. rewrite Hser. cbn.
    unfold bind at 1. rewrite Hdata. cbn. auto.
Qed.

(** C10. On a span of more than ten years where a pass before the last
    gets an empty frame with a status other than 200, and no pass gets an
    empty frame with status 200, the Splitter does not raise: it returns
    the other frames concatenated, the empty one adding nothing, with the
    status of the last pass alone.  If that frame has rows the guard of
    the facade lets it through, and once cleaned it is written to the
    output file, the operation ending without an error. *)
Theorem partial_series_written (start_year end_year : Z)
        (ticker output_filename plot_title format : string) (plot : bool)
        (s : St) (res : nat -> DataFrame * Z) (j : nat) :
  end_year - start_year > 10 ->
  (forall i, (i < passes start_year end_year)%nat ->
     result_of (upstream (List.length (sent s) + i)) = Ok (res i) /\
     ~ (fst (res i) = [] /\ snd (res i) = 200)) ->
  (S j < passes start_year end_year)%nat ->
  fst (res j) = [] -> snd (res j) <> 200 ->
  let partial :=
    List.concat (map (fun i => fst (res i)) (seq 0 (passes start_year end_year))) in
  partial <> [] ->
  Forall (fun r => ~ non_numeric_string r) partial ->
  fst (single_series upstream start_year end_year ticker s) =
    Ok (partial, snd (res (Nat.pred (passes start_year end_year)))) /\
  partial =
    List.concat (map (fun i => fst (res i))
                     (filter (fun i => negb (Nat.eqb i j))
                             (seq 0 (passes start_year end_year)))) /\
  exists t f,
    clean_dataframe partial = Ok t /\
    let run := process_cpi_series upstream start_year end_year ticker
                                  output_filename plot_title format plot s in
    fst run = Ok tt /\
    files (snd run) = (files s ++ [f])%list /\ content f = t.
Proof.
  intros Hspan H Hj Hempty Hstatus partial Hne HF.
  destruct (single_series_long_run start_year end_year ticker s res Hspan H)
    as (s1 & Hrun & _ & Hf1 & _).
  fold partial in Hrun. split; [now rewrite Hrun|].
  split; [apply (concat_without (fun i => fst (res i)) j), Hempty|].
  assert (Hclean : clean_dataframe partial
                   = Ok (map coerce (sort_values (map dated partial))))
    by (apply clean_dataframe_Ok; auto).
  destruct (save_dataframe_writes (map coerce (sort_values (map dated partial)))
                                  format output_filename s1)
    as (f & s2 & Hsave & Hfiles & Hcontent & _).
  exists (map coerce (sort_values (map dated partial))), f.
  split; [exact Hclean|]. cbn zeta.
  destruct (process_cpi_series upstream start_year end_year ticker output_filename
                               plot_title format plot s) as [o s'] eqn:E.
  destruct (process_cpi_series_cases _ _ _ _ _ _ _ _ _ _ _ _ Hrun E) as [_ Hcase].
  assert (Hg : empty partial = false) by (destruct partial; [congruence | reflexivity]).
  rewrite Hg, Hclean in Hcase. cbn [andb] in Hcase.
  destruct Hcase as (-> & s2' & Hsave' & Hfiles').
  rewrite Hsave in Hsave'. injection Hsave' as <-.
  cbn [fst snd]. split; [reflexivity|]. split; [congruence | exact Hcontent].
Qed.

End Splitter.

(** C8. The Writer never raises on its format argument.  For xlsx, csv
    and txt it writes the frame to the base name followed by a dot and that
    extension, as a spreadsheet, as comma-separated and as
    semicolon-separated text; for any other format it prints a warning and
    writes the spreadsheet to the base name followed by .xlsx. *)
Theorem save_dataframe_formats (df : DataFrame) (file_extension name : string) (s : St) :
  let run := save_dataframe df file_extension name s in
  fst run = Ok tt /\ sent (snd run) = sent s /\ shown (snd run) = shown s /\
  (file_extension = "xlsx" ->
   files (snd run) = (files s ++ [mkFile (name ++ "." ++ file_extension) Excel df])%list /\
   stdout (snd run) = stdout s) /\
  (file_extension = "csv" ->
   files (snd run) = (files s ++ [mkFile (name ++ "." ++ file_extension) (Csv ",") df])%list /\
   stdout (snd run) = stdout s) /\
  (file_extension = "txt" ->
   files (snd run) = (files s ++ [mkFile (name ++ "." ++ file_extension) (Csv ";") df])%list /\
   stdout (snd run) = stdout s) /\
  (file_extension <> "xlsx" -> file_extension <> "csv" -> file_extension <> "txt" ->
   files (snd run) = (files s ++ [mkFile (name ++ ".xlsx") Excel df])%list /\
   stdout (snd run) =
     (stdout s ++ [[PStr ("Unsupported format '" ++ file_extension
                          ++ "'. Defaulting to 'xlsx'.")]])%list).
Proof.
  intros run. subst run. unfold save_dataframe.
  destruct (String.eqb_spec file_extension "xlsx") as [-> | H1];
    [cbn; repeat split; auto; try discriminate; intros; congruence|].
  destruct (String.eqb_spec file_extension "csv") as [-> | H2];
    [cbn; repeat split; auto; try discriminate; intros; congruence|].
  destruct (String.eqb_spec file_extension "txt") as [-> | H3];
    [cbn; repeat split; auto; try discriminate; intros; congruence|].
  cbn. repeat split; auto; intros; congruence.
Qed.

(* ================================================================== *)
(** * The claims on concrete runs *)


Lemma clean_dataframe_sorted_witness :
  clean_dataframe sample = Ok sample_cleaned /\
  sorted_by_date sample_cleaned /\
  Permutation (map untouched sample_cleaned) (map untouched sample).
Proof.
  split; [reflexivity|].
  destruct (proj1 (clean_dataframe_sorted sample) sample_cleaned eq_refl)
    as (H1 & _ & H2 & _).
  split; [exact H1 | exact H2].
Defined.

Lemma clean_dataframe_raises_iff_witness :
  exists t, clean_dataframe sample = Ok t /\
            Forall (fun r => exists x, value r = CNum x) t.
Proof.
  apply (proj2 (clean_dataframe_raises_iff sample)).
  - apply all_numeric_or_missing. reflexivity.
  - discriminate.
Defined.

(** C9 as the specification states it fails on a value that is the empty
    string: every value of the frame is numeric or empty, and the
    coercion raises. *)
Lemma clean_dataframe_empty_string_raises :
  Forall (fun r => numeric (value r) \/ empty_value (value r)) blank_value /\
  clean_dataframe blank_value =
    Raise (ValueError "could not convert string to float: ''").
Proof.
  split; [|reflexivity].
  constructor; [|constructor]. right. right. reflexivity.
Qed.

Lemma fetched_always_data (i : nat) :
  (i < 3)%nat ->
  result_of (always_data (List.length (sent init) + i)) = Ok (fetched always_data i) /\
  ~ (fst (fetched always_data i) = [] /\ snd (fetched always_data i) = 200).
Proof.
  intros _. split; [reflexivity|]. intros [E _]. discriminate E.
Qed.

Lemma single_series_windows_witness :
  fst (single_series always_data 2000 2020 "CUSR0000SA0" init) =
    Ok (List.concat (map (fun i => fst (fetched always_data i)) (seq 0 3)), 200) /\
  map startyear (sent (snd (single_series always_data 2000 2020 "CUSR0000SA0" init)))
    = [2000; 2010; 2020].
Proof.
  destruct (single_series_windows always_data 2000 2020 "CUSR0000SA0" init
              (fetched always_data) ltac:(lia) fetched_always_data)
    as (_ & _ & H & _).
  split; [exact H | reflexivity].
Defined.

(** C1 as the specification states it fails on the span 2000 to 2020:
    three requests are posted where ceil(20/10) is two, each of them up to
    2020, so that the first window has twenty years and the windows
    overlap. *)
Lemma single_series_windows_overlap :
  windows_2000_2020 = [(2000, 2020); (2010, 2020); (2020, 2020)] /\
  Z.of_nat (List.length windows_2000_2020) <> ceil_div (2020 - 2000) 10 /\
  ~ Forall (fun w => snd w - fst w <= 10) windows_2000_2020 /\
  ~ consecutive windows_2000_2020 /\
  ~ partitions 2000 2020 windows_2000_2020.
Proof.
  change windows_2000_2020 with [(2000, 2020); (2010, 2020); (2020, 2020)].
  split; [reflexivity|]. split; [|split; [|split]].
  - vm_compute. discriminate.
  - intros H. inversion H as [|? ? Hw _]. simpl in Hw. lia.
  - simpl. lia.
  - intros (Hcount & _). vm_compute in Hcount. discriminate Hcount.
Qed.

Lemma single_series_one_request_witness :
  sent (snd (single_series always_data 2015 2020 "CUSR0000SA0" init))
    = [mkPayload ["CUSR0000SA0"] 2015 2020] /\
  fst (single_series always_data 2015 2020 "CUSR0000SA0" init)
    = result_of (always_data 0).
Proof.
  destruct (single_series_one_request always_data 2015 2020 "CUSR0000SA0" init
              ltac:(lia)) as (_ & H1 & H2).
  split; [exact H1 | exact H2].
Defined.

Lemma empty_200_raises_witness :
  fst (process_cpi_series no_rows 2015 2020 "CUSR0000SA0" "CPI_ALL_ITEMS_2015_2020"
                          "CPI_ALL_ITEMS" "xlsx" true init)
    = Raise integrity_error /\
  fst (single_series no_rows 2000 2023 "CUSR0000SA0" init) = Raise integrity_error.
Proof.
  split.
  - apply (proj2 (empty_200_raises no_rows) 2015 2020 "CUSR0000SA0"
                 "CPI_ALL_ITEMS_2015_2020" "CPI_ALL_ITEMS" "xlsx" true init 0%nat).
    + simpl. lia.
    + reflexivity.
  - apply (proj1 (empty_200_raises no_rows) 2000 2023 "CUSR0000SA0" init 0%nat).
    + lia.
    + simpl. lia.
    + reflexivity.
Defined.

Lemma generic_request_outcomes_witness :
  fst (generic_request always_refused "CUSR0000SA0" 2015 2020 init) = Ok ([], 200) /\
  stdout (snd (generic_request always_refused "CUSR0000SA0" 2015 2020 init))
    = [[PStr "Request failed: "; PList ["Series id is not valid"]]].
Proof.
  destruct (generic_request_outcomes always_refused "CUSR0000SA0" 2015 2020 init)
    as (_ & _ & _ & _ & H & _).
  apply (H _ "REQUEST_NOT_PROCESSED" ["Series id is not valid"]
           eq_refl eq_refl eq_refl).
  - discriminate.
  - reflexivity.
Defined.

(** C4 as the specification states it fails on an answer with status
    200 whose body has a status other than REQUEST_SUCCEEDED and no
    message: the Executor raises a KeyError where an empty frame and 200
    are claimed. *)
Lemma generic_request_raises_KeyError :
  status_code refused_without_message = 200 /\
  (exists data, json refused_without_message = Some data /\
                b_status data = Some "REQUEST_NOT_PROCESSED") /\
  fst (generic_request (fun _ => refused_without_message) "CUSR0000SA0" 2015 2020 init)
    = Raise (KeyError "message").
Proof.
  split; [reflexivity|]. split; [|reflexivity].
  eexists. split; reflexivity.
Qed.

Lemma save_dataframe_formats_witness :
  fst (save_dataframe sample_cleaned "json" "X" init) = Ok tt /\
  files (snd (save_dataframe sample_cleaned "json" "X" init))
    = [mkFile "X.xlsx" Excel sample_cleaned] /\
  stdout (snd (save_dataframe sample_cleaned "json" "X" init))
    = [[PStr "Unsupported format 'json'. Defaulting to 'xlsx'."]].
Proof.
  destruct (save_dataframe_formats sample_cleaned "json" "X" init)
    as (H & _ & _ & _ & _ & _ & Hother).
  split; [exact H|].
  apply Hother; discriminate.
Defined.

Lemma fetched_gap (i : nat) :
  (i < passes 2000 2023)%nat ->
  result_of (gap (List.length (sent init) + i)) = Ok (fetched gap i) /\
  ~ (fst (fetched gap i) = [] /\ snd (fetched gap i) = 200).
Proof.
  intros _. destruct i as [|[|i]]; (split; [reflexivity|]);
    intros [E1 E2]; discriminate.
Qed.

Lemma partial_series_written_witness :
  fst (single_series gap 2000 2023 "CUSR0000SAM" init)
    = Ok ([mkRow "2000" "M01" "January" (CStr "168.8") None;
           mkRow "2020" "M01" "January" (CStr "257.971") None], 200) /\
  fst (process_cpi_series gap 2000 2023 "CUSR0000SAM" "CPI_MEDICAL_CARE_2000_2023"
                          "CPI_MEDICAL_CARE" "txt" false init) = Ok tt.
Proof.
  destruct (partial_series_written gap 2000 2023 "CUSR0000SAM"
              "CPI_MEDICAL_CARE_2000_2023" "CPI_MEDICAL_CARE" "txt" false init
              (fetched gap) 1%nat ltac:(lia) fetched_gap)
    as (H1 & _ & t & f & _ & H2 & _).
  - vm_compute. lia.
  - reflexivity.
  - discriminate.
  - discriminate.
  - apply all_accepted. reflexivity.
  - split; [exact H1 | exact H2].
Defined.

(* ================================================================== *)
(** * Further properties of the Request Executor *)

Lemma read_response_Ok (r : response) (s : St) (df : DataFrame) (status : Z) :
  fst (read_response r s) = Ok (df, status) ->
  status = status_code r /\
  (status_code r <> 200 -> df = []) /\
  (df <> [] ->
   status_code r = 200 /\
   exists data Results series0 others records,
     json r = Some data /\ b_status data = Some "REQUEST_SUCCEEDED" /\
     b_Results data = Some Results /\
     r_series Results = Some (series0 :: others) /\
     s_data series0 = Some records /\
     df = from_records records).
Proof.
  unfold read_response.
  destruct (Z.eqb_spec (status_code r) 200) as [Hcode|Hcode].
  - unfold bind at 1, decode. destruct (json r) as [data|] eqn:EJ; [|discriminate].
    cbn [ret]. unfold bind at 1, getitem at 1.
    destruct (b_status data) as [st|] eqn:EB; [|discriminate]. cbn [ret].
    destruct (String.eqb_spec st "REQUEST_SUCCEEDED") as [->|Hst].
    + unfold bind, getitem, first, ret, raise.
      destruct (b_Results data) as [res|] eqn:ER; [|discriminate].
      destruct (r_series res) as [[|d0 rest]|] eqn:ES; try discriminate.
      destruct (s_data d0) as [records|] eqn:ED; [|discriminate].
      cbn. intros [= <- <-]. split; [reflexivity|].
      split; [intros; congruence|]. intros _. split; [assumption|].
      exists data, res, d0, rest, records. auto 10.
    + unfold bind, getitem, print, ret, raise.
      destruct (b_message data) as [msg|]; [|discriminate].
      cbn. intros [= <- <-]. split; [reflexivity|].
      split; [reflexivity | congruence].
  - unfold bind, print, ret. cbn. intros [= <- <-].
    split; [reflexivity|]. split; [reflexivity | congruence].
Qed.

Lemma read_response_Raise (r : response) (s s' : St) (e : exn) :
  read_response r s = (Raise e, s') ->
  status_code r = 200 /\ stdout s' = stdout s /\
  ((json r = None /\ e = JSONDecodeError) \/
   exists data, json r = Some data /\
     ((b_status data = None /\ e = KeyError "status") \/
      (exists status, b_status data = Some status /\
                      status <> "REQUEST_SUCCEEDED" /\
                      b_message data = None /\ e = KeyError "message") \/
      (b_status data = Some "REQUEST_SUCCEEDED" /\
       ((b_Results data = None /\ e = KeyError "Results") \/
        exists Results, b_Results data = Some Results /\
          ((r_series Results = None /\ e = KeyError "series") \/
           (r_series Results = Some [] /\ e = IndexError) \/
           exists series0 others,
             r_series Results = Some (series0 :: others) /\
             s_data series0 = None /\ e = KeyError "data"))))).
Proof.
  unfold read_response.
  destruct (Z.eqb_spec (status_code r) 200) as [Hcode|Hcode].
  - unfold bind at 1, decode. destruct (json r) as [data|] eqn:EJ.
    + cbn [ret]. unfold bind at 1, getitem at 1.
      destruct (b_status data) as [st|] eqn:EB.
      * cbn [ret].
        destruct (String.eqb_spec st "REQUEST_SUCCEEDED") as [->|Hst].
        -- unfold bind, getitem, first, ret, raise.
           destruct (b_Results data) as [res|] eqn:ER.
           ++ destruct (r_series res) as [[|d0 rest]|] eqn:ES.
              ** intros [= <- <-].
                 split; [exact Hcode|]. split; [reflexivity|].
                 right. exists data. split; [reflexivity|]. right. right.
                 split; [exact EB|]. right. exists res. auto.
              ** destruct (s_data d0) as [records|] eqn:ED; [discriminate|].
                 intros [= <- <-].
                 split; [exact Hcode|]. split; [reflexivity|].
                 right. exists data. split; [reflexivity|]. right. right.
                 split; [exact EB|]. right. exists res.
                 split; [exact ER|]. right. right. exists d0, rest. auto.
              ** intros [= <- <-].
                 split; [exact Hcode|]. split; [reflexivity|].
                 right. exists data. split; [reflexivity|]. right. right.
                 split; [exact EB|]. right. exists res. auto.
           ++ intros [= <- <-].
              split; [exact Hcode|]. split; [reflexivity|].
              right. exists data. split; [reflexivity|]. right. right.
              split; [exact EB|]. auto.
        -- unfold bind, getitem, print, ret, raise.
           destruct (b_message data) as [msg|] eqn:EM; [discriminate|].
           intros [= <- <-].
           split; [exact Hcode|]. split; [reflexivity|].
           right. exists data. split; [reflexivity|]. right. left.
           exists st. auto.
      * intros [= <- <-].
        split; [exact Hcode|]. split; [reflexivity|].
        right. exists data. auto.
    + intros [= <- <-].
      split; [exact Hcode|]. split; [reflexivity|]. left. auto.
  - unfold bind, print, ret. cbn. discriminate.
Qed.

Section ExecutorFacts.

Variable upstream : nat -> response.

(** X1. Whatever the Executor returns, the status is the HTTP status of
    the answer, and the frame has rows only when that status is 200 and
    the body says REQUEST_SUCCEEDED: the rows are then the records under
    data in the first element of series in Results, in their order. *)
Theorem generic_request_returns (series_id : string) (start_year end_year : Z)
        (s : St) (df : DataFrame) (status : Z) :
  fst (generic_request upstream series_id start_year end_year s) = Ok (df, status) ->
  let r := upstream (List.length (sent s)) in
  status = status_code r /\
  (status_code r <> 200 -> df = []) /\
  (df <> [] ->
   status_code r = 200 /\
   exists data Results series0 others records,
     json r = Some data /\ b_status data = Some "REQUEST_SUCCEEDED" /\
     b_Results data = Some Results /\
     r_series Results = Some (series0 :: others) /\
     s_data series0 = Some records /\
     df = from_records records).
Proof.
  rewrite generic_request_run. intros H. now apply read_response_Ok in H.
Qed.

(** X2. What the Executor raises on an answer with HTTP status 200 whose
    body lacks what the code reads from it.  A body that is not JSON
    raises JSONDecodeError.  In a JSON object, a missing status raises
    KeyError for status; a status other than REQUEST_SUCCEEDED without a
    message raises KeyError for message; under REQUEST_SUCCEEDED, missing
    Results, missing series and missing data in the first series raise
    KeyError for that key, and an empty list of series raises IndexError.
    In each case the request has gone out and nothing is printed. *)
Theorem generic_request_raises (series_id : string) (start_year end_year : Z) (s : St) :
  let r := upstream (List.length (sent s)) in
  let run := generic_request upstream series_id start_year end_year s in
  let raises e := fst run = Raise e /\ stdout (snd run) = stdout s in
  sent (snd run) = (sent s ++ [mkPayload [series_id] start_year end_year])%list /\
  (status_code r = 200 ->
   (json r = None -> raises JSONDecodeError) /\
   (forall data, json r = Some data ->
      (b_status data = None -> raises (KeyError "status")) /\
      (forall status, b_status data = Some status ->
         status <> "REQUEST_SUCCEEDED" -> b_message data = None ->
         raises (KeyError "message")) /\
      (b_status data = Some "REQUEST_SUCCEEDED" ->
         (b_Results data = None -> raises (KeyError "Results")) /\
         (forall Results, b_Results data = Some Results ->
            (r_series Results = None -> raises (KeyError "series")) /\
            (r_series Results = Some [] -> raises IndexError) /\
            (forall series0 others,
               r_series Results = Some (series0 :: others) ->
               s_data series0 = None -> raises (KeyError "data")))))).
Proof.
  intros r run raises. subst raises run. rewrite generic_request_run. fold r.
  match goal with |- context [read_response r ?s1] =>
    destruct (read_response_run r s1) as (_ & H2 & _) end.
  split; [exact H2|]. clear H2. intros Hcode.
  cbv beta delta [read_response bind decode getitem first print ret raise].
  rewrite Hcode. cbn [Z.eqb Pos.eqb]. split.
  - intros Hj. rewrite Hj. cbn. auto.
  - intros data Hj. rewrite Hj. cbv beta iota. split; [|split].
    + intros Hs. rewrite Hs. cbn. auto.
    + intros status Hs Hne Hm. rewrite Hs. cbv beta iota.
      apply String.eqb_neq in Hne. rewrite Hne, Hm. cbn. auto.
    + intros Hs. rewrite Hs. cbv beta iota. rewrite String.eqb_refl. split.
      * intros HR. rewrite HR. cbn. auto.
      * intros Results HR. rewrite HR. cbv beta iota. split; [|split].
        -- intros HS. rewrite HS. cbn. auto.
        -- intros HS. rewrite HS. cbn. auto.
        -- intros series0 others HS Hd. rewrite HS. cbv beta iota.
           rewrite Hd. cbn. auto.
Qed.

End ExecutorFacts.

(* ================================================================== *)
(** * Further properties of the Splitter *)

Lemma window_shift (ticker : string) (start_year end_year : Z) (m : nat) :
  map (window ticker (start_year + 10) end_year) (seq 0 m) =
  map (window ticker start_year end_year) (seq 1 m).
Proof.
  rewrite <- seq_shift, map_map. apply map_ext. intros i.
  unfold window. f_equal. lia.
Qed.

Lemma window_0 (ticker : string) (start_year end_year : Z) :
  mkPayload [ticker] start_year end_year = window ticker start_year end_year 0.
Proof. unfold window. f_equal. lia. Qed.

Section SplitterFacts.

Variable upstream : nat -> response.

(** Whatever the answers, the loop posts the requests of its first
    passes, at least one if it has a pass to make, and all of them if it
    comes to its end. *)
Lemma for_loop_posts (n : nat) :
  forall (start_year end_year : Z) (ticker : string) (list_df : list DataFrame)
         (status : option Z) (s s' : St) (o : outcome (list DataFrame * option Z)),
    for_loop upstream n start_year end_year ticker list_df status s = (o, s') ->
    exists m,
      sent s' = (sent s ++ map (window ticker start_year end_year) (seq 0 m))%list /\
      (m <= n)%nat /\ (1 <= n -> 1 <= m)%nat /\
      ((exists x, o = Ok x) -> m = n).
Proof.
  induction n as [|n IH];
    intros start_year end_year ticker list_df status s s' o Hloop.
  - injection Hloop as <- <-. exists 0%nat. simpl. rewrite app_nil_r.
    repeat split; auto; lia.
  - destruct (generic_request_spec upstream ticker start_year end_year s)
      as (s1 & Hrun & Hsent & _).
    rewrite window_0 in Hsent.
    cbn [for_loop] in Hloop. unfold bind at 1 in Hloop. rewrite Hrun in Hloop.
    destruct (result_of (upstream (List.length (sent s)))) as [[df st]|e].
    + destruct (empty df && (st =? 200)).
      * injection Hloop as <- <-. exists 1%nat.
        split; [exact Hsent|]. split; [lia|]. split; [lia|].
        intros [x Hx]. discriminate.
      * destruct (IH _ _ _ _ _ _ _ _ Hloop) as (m & Hs' & Hle & _ & Hall).
        exists (S m). split; [|split; [lia|split; [lia|]]].
        -- rewrite Hs', Hsent, window_shift, <- app_assoc. reflexivity.
        -- intros Hx. now rewrite (Hall Hx).
    + injection Hloop as <- <-. exists 1%nat.
      split; [exact Hsent|]. split; [lia|]. split; [lia|].
      intros [x Hx]. discriminate.
Qed.

(** The first pass that raises, or gets an empty frame with status 200,
    is the last: the loop ends there with that exception. *)
Lemma for_loop_stops (n : nat) :
  forall (j : nat) (start_year end_year : Z) (ticker : string)
         (list_df : list DataFrame) (status : option Z) (s : St)
         (res : nat -> DataFrame * Z) (stop : exn),
    (j < n)%nat ->
    (forall i, (i < j)%nat ->
       result_of (upstream (List.length (sent s) + i)) = Ok (res i) /\
       ~ (fst (res i) = [] /\ snd (res i) = 200)) ->
    result_of (upstream (List.length (sent s) + j)) = Raise stop \/
    (result_of (upstream (List.length (sent s) + j)) = Ok ([], 200) /\
     stop = integrity_error) ->
    exists s',
      for_loop upstream n start_year end_year ticker list_df status s
        = (Raise stop, s') /\
      sent s' = (sent s ++ map (window ticker start_year end_year) (seq 0 (S j)))%list /\
      files s' = files s /\ shown s' = shown s.
Proof.
  induction n as [|n IH];
    intros j start_year end_year ticker list_df status s res stop Hj Hgood Hbad;
    [lia|].
  destruct (generic_request_spec upstream ticker start_year end_year s)
    as (s1 & Hrun & Hsent & Hfiles & Hshown).
  rewrite window_0 in Hsent.
  cbn [for_loop]. unfold bind at 1. rewrite Hrun.
  destruct j as [|j].
  - rewrite Nat.add_0_r in Hbad. exists s1.
    destruct Hbad as [-> | [-> ->]]; cbn; auto.
  - destruct (Hgood 0%nat ltac:(lia)) as [H0 Hg]. rewrite Nat.add_0_r in H0.
    rewrite H0. destruct (res 0%nat) as [df0 st0]. cbn [fst snd] in Hg.
    rewrite (guard_false _ _ Hg).
    assert (Hlen : forall i, (List.length (sent s1) + i
                              = List.length (sent s) + S i)%nat).
    { intros i. rewrite Hsent, length_app. simpl. lia. }
    destruct (IH j (start_year + 10) end_year ticker (list_df ++ [df0])%list
                 (Some st0) s1 (fun i => res (S i)) stop)
      as (s' & Hloop & Hs' & Hf' & Hsh').
    + lia.
    + intros i Hi. rewrite Hlen. apply Hgood. lia.
    + now rewrite Hlen.
    + exists s'. split; [exact Hloop|]. split; [|split; congruence].
      rewrite Hs', Hsent, window_shift, <- app_assoc. reflexivity.
Qed.

(** The loop comes to its end only with a last frame that is not empty
    with status 200. *)
Lemma for_loop_last (n : nat) :
  forall (start_year end_year : Z) (ticker : string) (list_df l : list DataFrame)
         (status status' : option Z) (s s' : St),
    for_loop upstream n start_year end_year ticker list_df status s
      = (Ok (l, status'), s') ->
    (n = 0%nat /\ l = list_df /\ status' = status) \/
    exists front df st,
      l = (front ++ [df])%list /\ status' = Some st /\ ~ (df = [] /\ st = 200).
Proof.
  induction n as [|n IH];
    intros start_year end_year ticker list_df l status status' s s' Hloop.
  - injection Hloop as <- <- <-. auto.
  - right.
    destruct (generic_request_spec upstream ticker start_year end_year s)
      as (s1 & Hrun & _).
    cbn [for_loop] in Hloop. unfold bind at 1 in Hloop. rewrite Hrun in Hloop.
    destruct (result_of (upstream (List.length (sent s)))) as [[df st]|e];
      [|discriminate].
    destruct (empty df && (st =? 200)) eqn:G; [discriminate|].
    assert (Hg : ~ (df = [] /\ st = 200)).
    { intros [-> ->]. discriminate. }
    destruct (IH _ _ _ _ _ _ _ _ _ Hloop) as [(_ & -> & ->) | H].
    + now exists list_df, df, st.
    + exact H.
Qed.

(** X3. Whatever the service answers, the Splitter posts nothing but the
    requests of its passes in order, all for the series asked and all up
    to [end_year]: pass [i] asks for [start_year + 10 i] to [end_year].
    It posts at least one and at most floor(span/10) + 1 of them on a
    span of more than ten years, exactly one otherwise, and all of them
    whenever it returns. *)
Theorem single_series_requests (start_year end_year : Z) (ticker : string) (s : St) :
  let run := single_series upstream start_year end_year ticker s in
  let most := if end_year - start_year >? 10
              then (end_year - start_year) / 10 + 1 else 1 in
  exists m,
    sent (snd run) =
      (sent s ++ map (window ticker start_year end_year) (seq 0 m))%list /\
    (1 <= m)%nat /\ Z.of_nat m <= most /\
    ((exists x, fst run = Ok x) -> Z.of_nat m = most).
Proof.
  intros run most. subst run most.
  destruct (single_series upstream start_year end_year ticker s) as [o s'] eqn:E.
  unfold single_series in E.
  destruct (Z.gtb_spec (end_year - start_year) 10) as [Hlong|Hshort].
  - unfold bind at 1 in E.
    destruct (for_loop upstream (passes start_year end_year) start_year end_year
                       ticker [] None s) as [o1 s1] eqn:Hloop.
    destruct (for_loop_posts _ _ _ _ _ _ _ _ _ Hloop) as (m & Hsent & Hle & Hone & Hall).
    pose proof (passes_eq start_year end_year ltac:(lia)) as Hp.
    pose proof (passes_ge_2 start_year end_year ltac:(lia)) as Hp2.
    assert (Hs : s' = s1 /\ ((exists x, o = Ok x) -> exists x, o1 = Ok x)).
    { destruct o1 as [[list_df status]|e].
      - unfold bind, lift, ret, raise in E.
        destruct list_df; destruct status; simpl in E;
          injection E as <- <-; split; eauto.
      - injection E as <- <-. split; [reflexivity|]. intros [x Hx]. discriminate. }
    destruct Hs as [-> Hok]. exists m. cbn [fst snd].
    split; [exact Hsent|]. split; [lia|]. split; [lia|].
    intros Hx. rewrite (Hall (Hok Hx)). exact Hp.
  - destruct (generic_request_spec upstream ticker start_year end_year s)
      as (s1 & Hrun & Hsent & _).
    rewrite Hrun in E. injection E as <- <-. exists 1%nat. cbn [fst snd].
    rewrite Hsent, window_0. split; [reflexivity|]. split; [lia|]. split; lia.
Qed.

(** X4. On a span of more than ten years the Splitter stops at the first
    pass that raises or gets an empty frame with status 200: it ends with
    that exception, the integrity error in the second case, and has posted
    the requests up to that pass and none after it. *)
Theorem single_series_stops (start_year end_year : Z) (ticker : string) (s : St)
        (res : nat -> DataFrame * Z) (j : nat) (stop : exn) :
  end_year - start_year > 10 ->
  (j < passes start_year end_year)%nat ->
  (forall i, (i < j)%nat ->
     result_of (upstream (List.length (sent s) + i)) = Ok (res i) /\
     ~ (fst (res i) = [] /\ snd (res i) = 200)) ->
  result_of (upstream (List.length (sent s) + j)) = Raise stop \/
  (result_of (upstream (List.length (sent s) + j)) = Ok ([], 200) /\
   stop = integrity_error) ->
  let run := single_series upstream start_year end_year ticker s in
  fst run = Raise stop /\
  sent (snd run) =
    (sent s ++ map (window ticker start_year end_year) (seq 0 (S j)))%list /\
  files (snd run) = files s /\ shown (snd run) = shown s.
Proof.
  intros Hspan Hj Hgood Hbad run. subst run.
  destruct (for_loop_stops (passes start_year end_year) j start_year end_year
                           ticker [] None s res stop Hj Hgood Hbad)
    as (s' & Hloop & Hsent & Hf & Hsh).
  destruct (single_series upstream start_year end_year ticker s) as [o s1] eqn:E.
  unfold single_series in E.
  destruct (Z.gtb_spec (end_year - start_year) 10); [|lia].
  unfold bind at 1 in E. rewrite Hloop in E. injection E as <- <-.
  cbn [fst snd]. auto.
Qed.

(** X5. On a span of more than ten years the Splitter never returns an
    empty frame together with status 200: the last pass would have raised. *)
Theorem single_series_never_empty_200 (start_year end_year : Z) (ticker : string)
        (s : St) (df : DataFrame) (status : Z) :
  end_year - start_year > 10 ->
  fst (single_series upstream start_year end_year ticker s) = Ok (df, status) ->
  ~ (df = [] /\ status = 200).
Proof.
  intros Hspan H. unfold single_series in H.
  destruct (Z.gtb_spec (end_year - start_year) 10); [|lia].
  unfold bind at 1 in H.
  destruct (for_loop upstream (passes start_year end_year) start_year end_year
                     ticker [] None s) as [[[l st']|e] s1] eqn:Hloop;
    [|discriminate].
  pose proof (passes_ge_2 _ _ Hspan) as Hp.
  destruct (for_loop_last _ _ _ _ _ _ _ _ _ _ Hloop)
    as [(Hn & _) | (front & d & st & -> & -> & Hg)]; [lia|].
  assert (Hc : pd_concat (front ++ [d]) = Ok (List.concat (front ++ [d])))
    by now destruct front.
  unfold bind, lift, ret in H. rewrite Hc in H. cbn in H. injection H as <- <-.
  rewrite concat_app. cbn [List.concat]. rewrite app_nil_r.
  intros [Hnil ->]. apply app_eq_nil in Hnil as [_ ->]. now apply Hg.
Qed.

End SplitterFacts.

(* ================================================================== *)
(** * Further properties of the facade *)

Lemma save_dataframe_file (df : DataFrame) (file_extension name : string) (s : St) :
  exists s',
    save_dataframe df file_extension name s = (Ok tt, s') /\
    files s' = (files s ++ [mkFile (name ++ "." ++ extension file_extension)
                                   (kind file_extension) df])%list /\
    sent s' = sent s /\ shown s' = shown s.
Proof.
  unfold save_dataframe, extension, kind.
  destruct (String.eqb_spec file_extension "xlsx") as [->|_];
    [|destruct (String.eqb file_extension "csv");
      [|destruct (String.eqb file_extension "txt")]];
    eexists; (split; [reflexivity|]); cbn; auto.
Qed.

Lemma result_of_http_error (r : response) :
  status_code r <> 200 -> result_of r = Ok ([], status_code r).
Proof.
  intros H. unfold result_of, read_response.
  apply Z.eqb_neq in H. now rewrite H.
Qed.

Lemma result_of_refused (r : response) (data : body) (status : string)
      (message : list string) :
  status_code r = 200 -> json r = Some data -> b_status data = Some status ->
  status <> "REQUEST_SUCCEEDED" -> b_message data = Some message ->
  result_of r = Ok ([], 200).
Proof.
  intros Hc Hj Hs Hne Hm. unfold result_of, read_response.
  rewrite Hc. cbn [Z.eqb Pos.eqb]. unfold bind at 1, decode. rewrite Hj. cbn.
  unfold bind at 1. rewrite Hs. cbn. apply String.eqb_neq in Hne. rewrite Hne.
  unfold bind at 1. rewrite Hm. reflexivity.
Qed.

Lemma concat_all_nil {A} (f : nat -> list A) (l : list nat) :
  (forall i, In i l -> f i = []) -> List.concat (map f l) = [].
Proof.
  induction l as [|i l IH]; intros H; simpl; [reflexivity|].
  rewrite (H i (or_introl eq_refl)). apply IH. intros k Hk. apply H. now right.
Qed.

Section FacadeFacts.

Variable upstream : nat -> response.

(** The facade, from where the Splitter leaves it. *)
Lemma process_cpi_series_run (start_year end_year : Z)
      (ticker output_filename plot_title format : string) (plot : bool)
      (s s1 : St) (o1 : outcome (DataFrame * Z)) :
  single_series upstream start_year end_year ticker s = (o1, s1) ->
  process_cpi_series upstream start_year end_year ticker output_filename
                     plot_title format plot s =
  match o1 with
  | Raise e => (Raise e, s1)
  | Ok (df, status) =>
      if empty df && (status =? 200) then (Raise integrity_error, s1)
      else
        match clean_dataframe df with
        | Raise e => (Raise e, s1)
        | Ok t =>
            let s2 := snd (save_dataframe t format output_filename s1) in
            (Ok tt,
             mkSt (sent s2) (stdout s2) (files s2)
                  (shown s2 ++ if plot
                               then [plot_series_cpi t start_year end_year plot_title]
                               else [])%list)
        end
  end.
Proof.
  intros H1. unfold process_cpi_series. unfold bind at 1. rewrite H1.
  destruct o1 as [[df status]|e]; [|reflexivity].
  destruct (empty df && (status =? 200)); [reflexivity|].
  unfold bind at 1, lift at 1.
  destruct (clean_dataframe df) as [t|e]; [|reflexivity].
  unfold bind at 1.
  destruct (save_dataframe_file t format output_filename s1) as (s2 & Hsave & _).
  rewrite Hsave. cbn [snd]. destruct plot; cbn.
  - reflexivity.
  - rewrite app_nil_r. now destruct s2.
Qed.

Lemma single_series_frame (start_year end_year : Z) (ticker : string) (s s1 : St)
      (o1 : outcome (DataFrame * Z)) :
  single_series upstream start_year end_year ticker s = (o1, s1) ->
  files s1 = files s /\ shown s1 = shown s.
Proof.
  intros H. apply single_series_guard in H as (Hf & Hsh & _). auto.
Qed.

(** X6. The facade writes all or nothing.  When it raises, no file has
    been written and no figure shown.  When it returns, the Splitter
    returned a frame, not empty with status 200, which the Cleaner
    accepted; exactly one file was written, the cleaned frame under the
    output name with the extension of the format, and the figure of the
    cleaned frame was shown if and only if [plot] was set.  In both cases
    the only requests posted are those of the Splitter. *)
Theorem process_cpi_series_all_or_nothing (start_year end_year : Z)
        (ticker output_filename plot_title format : string) (plot : bool) (s : St) :
  let run := process_cpi_series upstream start_year end_year ticker
                                output_filename plot_title format plot s in
  let fetch := single_series upstream start_year end_year ticker s in
  sent (snd run) = sent (snd fetch) /\
  match fst run with
  | Raise _ => files (snd run) = files s /\ shown (snd run) = shown s
  | Ok _ =>
      exists df status t,
        fst fetch = Ok (df, status) /\ ~ (df = [] /\ status = 200) /\
        clean_dataframe df = Ok t /\
        files (snd run) =
          (files s ++ [mkFile (output_filename ++ "." ++ extension format)
                              (kind format) t])%list /\
        shown (snd run) =
          (shown s ++ if plot
                      then [plot_series_cpi t start_year end_year plot_title]
                      else [])%list
  end.
Proof.
  intros run fetch. subst run fetch.
  destruct (single_series upstream start_year end_year ticker s) as [o1 s1] eqn:E1.
  rewrite (process_cpi_series_run _ _ _ _ _ _ _ _ _ _ E1).
  destruct (single_series_frame _ _ _ _ _ _ E1) as [Hf Hsh].
  destruct o1 as [[df status]|e]; cbn [fst snd]; [|auto].
  destruct (empty df && (status =? 200)) eqn:G; cbn [fst snd]; [auto|].
  destruct (clean_dataframe df) as [t|e] eqn:Hc; cbn [fst snd]; [|auto].
  destruct (save_dataframe_file t format output_filename s1)
    as (s2 & Hsave & Hfiles & Hsent & Hshown).
  rewrite Hsave. cbn [fst snd sent files shown].
  split; [exact Hsent|]. exists df, status, t.
  split; [reflexivity|]. split.
  - intros [-> ->]. discriminate.
  - split; [exact Hc|]. split; congruence.
Qed.

(** X7. When every request of the run gets an answer whose HTTP status is
    not 200 -- the one request of a span of at most ten years, or each of
    the floor(span/10) + 1 of a longer span -- the facade ends with
    KeyError 'year', raised by the Cleaner on the frame without columns,
    and not with the integrity error; nothing is written or shown. *)
Theorem process_cpi_series_http_errors (start_year end_year : Z)
        (ticker output_filename plot_title format : string) (plot : bool) (s : St) :
  (forall i, (i < if end_year - start_year >? 10
                  then passes start_year end_year else 1)%nat ->
             status_code (upstream (List.length (sent s) + i)) <> 200) ->
  let run := process_cpi_series upstream start_year end_year ticker
                                output_filename plot_title format plot s in
  fst run = Raise (KeyError "year") /\
  files (snd run) = files s /\ shown (snd run) = shown s.
Proof.
  intros H run. subst run.
  destruct (single_series upstream start_year end_year ticker s) as [o1 s1] eqn:E1.
  rewrite (process_cpi_series_run _ _ _ _ _ _ _ _ _ _ E1).
  destruct (single_series_frame _ _ _ _ _ _ E1) as [Hf Hsh].
  assert (Ho1 : exists status, o1 = Ok ([], status) /\ status <> 200).
  { destruct (Z.gtb_spec (end_year - start_year) 10) as [Hlong|Hshort].
    - set (res := fun i =>
                    (@nil row, status_code (upstream (List.length (sent s) + i)))).
      destruct (single_series_long_run upstream start_year end_year ticker s res)
        as (s' & Hrun & _).
      + lia.
      + intros i Hi. split.
        * now apply result_of_http_error, H.
        * intros [_ Hs]. now apply (H i Hi).
      + rewrite Hrun in E1. injection E1 as <- <-.
        rewrite (concat_all_nil (fun i => fst (res i))) by reflexivity.
        eexists. split; [reflexivity|]. apply H.
        pose proof (passes_ge_2 start_year end_year ltac:(lia)). lia.
    - apply single_series_guard in E1 as (_ & _ & _ & Hs).
      destruct (Hs ltac:(lia)) as [-> _].
      specialize (H 0%nat ltac:(lia)). rewrite Nat.add_0_r in H.
      rewrite (result_of_http_error _ H). eauto. }
  destruct Ho1 as (status & -> & Hne).
  apply Z.eqb_neq in Hne. cbn [empty andb]. rewrite Hne. cbn. auto.
Qed.

(** X8. When the first request of the run gets an answer with HTTP status
    200 whose body reports a status other than REQUEST_SUCCEEDED, with a
    message, the facade ends with the integrity error, on a span of any
    length: that one request has been posted, nothing is written or
    shown. *)
Theorem process_cpi_series_refused (start_year end_year : Z)
        (ticker output_filename plot_title format : string) (plot : bool) (s : St)
        (data : body) (status : string) (message : list string) :
  let r := upstream (List.length (sent s)) in
  status_code r = 200 -> json r = Some data -> b_status data = Some status ->
  status <> "REQUEST_SUCCEEDED" -> b_message data = Some message ->
  let run := process_cpi_series upstream start_year end_year ticker
                                output_filename plot_title format plot s in
  fst run = Raise integrity_error /\
  sent (snd run) = (sent s ++ [mkPayload [ticker] start_year end_year])%list /\
  files (snd run) = files s /\ shown (snd run) = shown s.
Proof.
  intros r Hc Hj Hs Hne Hm run. subst run.
  pose proof (result_of_refused r data status message Hc Hj Hs Hne Hm) as Hres.
  destruct (single_series upstream start_year end_year ticker s) as [o1 s1] eqn:E1.
  rewrite (process_cpi_series_run _ _ _ _ _ _ _ _ _ _ E1).
  destruct (Z_gt_le_dec (end_year - start_year) 10) as [Hlong|Hshort].
  - destruct (for_loop_stops upstream (passes start_year end_year) 0 start_year
                end_year ticker [] None s (fun _ => ([], 0)) integrity_error)
      as (s' & Hloop & Hsent & Hf & Hsh).
    + pose proof (passes_ge_2 start_year end_year Hlong). lia.
    + intros i Hi. lia.
    + right. rewrite Nat.add_0_r. auto.
    + unfold single_series in E1.
      destruct (Z.gtb_spec (end_year - start_year) 10); [|lia].
      unfold bind at 1 in E1. rewrite Hloop in E1. injection E1 as <- <-.
      cbn [fst snd]. rewrite Hsent. cbn [seq map]. rewrite <- window_0. auto.
  - destruct (single_series_frame _ _ _ _ _ _ E1) as [Hf Hsh].
    apply single_series_guard in E1 as (_ & _ & _ & Hshort').
    destruct (Hshort' Hshort) as [-> Hsent]. fold r. rewrite Hres.
    cbn. auto.
Qed.

End FacadeFacts.

(* ================================================================== *)
(** * Further properties of the Cleaner *)

Lemma filter_isna_sort_values (df : DataFrame) :
  filter isna (sort_values df) = filter isna df.
Proof.
  unfold sort_values. rewrite filter_app, filter_none.
  - simpl. apply filter_all, filter_Forall.
  - eapply Forall_impl; [|apply notna_argsort].
    unfold isna. intros r H. now rewrite H.
Qed.

Lemma filter_notna_sort_values (df : DataFrame) :
  filter notna (sort_values df) = argsort (filter notna df).
Proof.
  unfold sort_values. rewrite filter_app.
  rewrite (filter_all _ _ (notna_argsort df)).
  rewrite (filter_none _ _ (isna_filter df)). apply app_nil_r.
Qed.

Lemma filter_map_pre {A B} (p : B -> bool) (f : A -> B) (l : list A) :
  filter p (map f l) = map f (filter (fun x => p (f x)) l).
Proof.
  induction l as [|x l IH]; simpl; [reflexivity|].
  destruct (p (f x)); simpl; now rewrite IH.
Qed.

Lemma isna_coerce (r : row) : isna (coerce r) = isna r.
Proof. unfold isna, notna. now rewrite date_coerce. Qed.

Lemma notna_coerce (r : row) : notna (coerce r) = notna r.
Proof. unfold notna. now rewrite date_coerce. Qed.

Lemma isna_dated (r : row) : isna (dated r) = undated r.
Proof. unfold isna, notna, undated, dated. simpl. now destruct (derived_date r). Qed.

Lemma notna_dated (r : row) : notna (dated r) = negb (undated r).
Proof. unfold notna, undated, dated. simpl. now destruct (derived_date r). Qed.

(** X9. The rows without a date come last in the cleaned frame and are
    there in the order they had in the input: the frame is its dated rows
    followed by its undated ones, and the undated ones are those of the
    input, in input order. *)
Theorem clean_dataframe_nulls_last (df t : DataFrame) :
  clean_dataframe df = Ok t ->
  t = (filter notna t ++ filter isna t)%list /\
  map untouched (filter isna t) = map untouched (filter undated df).
Proof.
  intros H. apply clean_dataframe_Ok in H as (_ & _ & ->).
  set (D := map dated df).
  rewrite (filter_map_comm isna coerce _ isna_coerce).
  rewrite (filter_map_comm notna coerce _ notna_coerce).
  rewrite filter_isna_sort_values, filter_notna_sort_values. split.
  - rewrite <- map_app. reflexivity.
  - unfold D. rewrite (filter_map_pre isna dated).
    rewrite (filter_ext _ undated isna_dated).
    rewrite !map_map. apply map_ext. intros r. now rewrite untouched_coerce.
Qed.

Lemma NoDup_map_via {A B C} (f : A -> B) (g : A -> C) (l : list A) :
  (forall x y, In x l -> In y l -> g x = g y -> f x = f y) ->
  NoDup (map f l) -> NoDup (map g l).
Proof.
  induction l as [|a l IH]; intros Hfg HN; simpl; [constructor|].
  inversion HN as [|? ? Hnotin HN']; subst. constructor.
  - intros Hin. apply in_map_iff in Hin as (b & Hb & Hinb).
    apply Hnotin. rewrite <- (Hfg b a); [now apply in_map | now right | now left |].
    exact Hb.
  - apply IH; [|exact HN']. intros x y Hx Hy. apply Hfg; now right.
Qed.

Lemma key_dated_inj (r1 r2 : row) :
  undated r1 = false -> undated r2 = false ->
  key (dated r1) = key (dated r2) -> derived_date r1 = derived_date r2.
Proof.
  unfold undated, key, dated. simpl.
  destruct (derived_date r1) as [|y1 m1] eqn:E1; [discriminate|].
  destruct (derived_date r2) as [|y2 m2] eqn:E2; [discriminate|].
  intros _ _ Hk. apply to_datetime_month in E1, E2.
  unfold ordinal in Hk. f_equal; lia.
Qed.

(** X11. When every row of a frame has a date and no two rows have the
    same one, the order of the input does not matter: cleaning the frame
    and cleaning any rearrangement of its rows give the same result,
    the same exception included. *)
Theorem clean_dataframe_order_free (df1 df2 : DataFrame) :
  Permutation df1 df2 ->
  Forall (fun r => undated r = false) df1 ->
  NoDup (map derived_date df1) ->
  clean_dataframe df1 = clean_dataframe df2.
Proof.
  intros HP Hd HN.
  destruct df1 as [|r1 df1'] eqn:E1.
  { apply Permutation_nil in HP. now subst. }
  destruct df2 as [|r2 df2'] eqn:E2.
  { apply Permutation_sym, Permutation_nil in HP. discriminate. }
  rewrite <- E1, <- E2 in *.
  rewrite !clean_dataframe_unfold by (subst; discriminate).
  f_equal.
  assert (Hd2 : Forall (fun r => undated r = false) df2)
    by (eapply Permutation_Forall; eauto).
  assert (Hall : forall df, Forall (fun r => undated r = false) df ->
                            sort_values (map dated df) = argsort (map dated df)).
  { intros df H. unfold sort_values.
    rewrite filter_all, filter_none.
    - apply app_nil_r.
    - apply Forall_map. eapply Forall_impl; [|exact H].
      intros r Hr. cbn beta in Hr. unfold isna. now rewrite notna_dated, Hr.
    - apply Forall_map. eapply Forall_impl; [|exact H].
      intros r Hr. cbn beta in Hr. now rewrite notna_dated, Hr. }
  rewrite (Hall df1 Hd), (Hall df2 Hd2). symmetry.
  apply argsort_unique; [| |apply argsort_sorted].
  - rewrite map_map.
    apply (NoDup_map_via derived_date (fun r => key (dated r))); [|exact HN].
    intros x y Hx Hy. apply key_dated_inj.
    + exact (proj1 (Forall_forall _ _) Hd x Hx).
    + exact (proj1 (Forall_forall _ _) Hd y Hy).
  - eapply perm_trans; [apply argsort_perm|].
    apply Permutation_map, Permutation_sym, HP.
Qed.

(* ================================================================== *)
(** * The Cleaner over any sort, and cleaning twice *)

Lemma clean_dataframe_by_argsort (df : DataFrame) :
  clean_dataframe_by argsort df = clean_dataframe df.
Proof. reflexivity. Qed.

Lemma sorts_argsort : sorts argsort.
Proof. intros l. split; [apply argsort_perm | apply argsort_sorted]. Qed.

Lemma sorts_reversing : sorts reversing.
Proof.
  intros l. unfold reversing. split; [|apply argsort_sorted].
  eapply perm_trans; [apply argsort_perm | apply Permutation_sym, Permutation_rev].
Qed.

Lemma sorts_ties_reversed : sorts ties_reversed.
Proof.
  intros l. unfold ties_reversed.
  destruct (List.length l <=? 16)%nat; [apply sorts_argsort | apply sorts_reversing].
Qed.

Lemma key_coerce (r : row) : key (coerce r) = key r.
Proof. unfold key. now rewrite date_coerce. Qed.

Lemma key_sorted_map (f : row -> row) (l : DataFrame) :
  (forall x, key (f x) = key x) -> key_sorted l -> key_sorted (map f l).
Proof.
  intros Hf. unfold key_sorted.
  induction 1 as [|a l Hs IH Ha]; simpl; constructor; [exact IH|].
  apply Forall_map. eapply Forall_impl; [|exact Ha].
  intros b Hb. now rewrite !Hf.
Qed.

Lemma distinct_dates_keys (df : DataFrame) :
  distinct_dates df -> NoDup (map key (filter notna (map dated df))).
Proof.
  intros Hd. rewrite (filter_map_pre notna dated).
  rewrite (filter_ext _ (fun r => negb (undated r)) notna_dated).
  rewrite map_map.
  apply (NoDup_map_via derived_date (fun r => key (dated r))); [|exact Hd].
  intros x y Hx Hy. apply filter_In in Hx as [_ Hx], Hy as [_ Hy].
  apply negb_true_iff in Hx, Hy. now apply key_dated_inj.
Qed.

Section AnySort.

Variable sorter : DataFrame -> DataFrame.
Hypothesis sorter_sorts : sorts sorter.

Lemma sort_values_by_perm (df : DataFrame) :
  Permutation (sort_values_by sorter df) df.
Proof.
  unfold sort_values_by.
  eapply perm_trans; [|apply (filter_split_perm notna)].
  apply Permutation_app; [apply sorter_sorts | apply Permutation_refl].
Qed.

Lemma sorter_notna (l : DataFrame) :
  Forall (fun r => notna r = true) (sorter (filter notna l)).
Proof.
  eapply Permutation_Forall; [apply Permutation_sym, sorter_sorts|].
  apply filter_Forall.
Qed.

Lemma filter_notna_sort_values_by (df : DataFrame) :
  filter notna (sort_values_by sorter df) = sorter (filter notna df).
Proof.
  unfold sort_values_by. rewrite filter_app.
  rewrite (filter_all _ _ (sorter_notna df)).
  rewrite (filter_none _ _ (isna_filter df)). apply app_nil_r.
Qed.

Lemma filter_isna_sort_values_by (df : DataFrame) :
  filter isna (sort_values_by sorter df) = filter isna df.
Proof.
  unfold sort_values_by. rewrite filter_app, filter_none.
  - simpl. apply filter_all, filter_Forall.
  - eapply Forall_impl; [|apply sorter_notna].
    unfold isna. intros r H. now rewrite H.
Qed.

Lemma sort_values_by_sorted (df : DataFrame) :
  Forall valid_month df -> sorted_by_date (sort_values_by sorter df).
Proof.
  intros Hv. unfold sort_values_by. apply StronglySorted_app.
  - apply key_sorted_chron; [apply sorter_sorts | apply sorter_notna |].
    eapply Permutation_Forall; [apply Permutation_sym, sorter_sorts|].
    apply Forall_forall. intros r Hr. apply filter_In in Hr as [Hr _].
    now apply (proj1 (Forall_forall _ _) Hv).
  - apply nulls_sorted, isna_filter.
  - intros a b Ha Hb.
    apply (proj1 (Forall_forall _ _) (isna_filter df)) in Hb.
    unfold notna, chron_le in *.
    destruct (date a) as [[|? ?]|]; destruct (date b) as [[|? ?]|];
      (exact I || discriminate).
Qed.

(** Over any sort the Cleaner returns on the same frames as over
    [argsort], with the coerced rows in the order the sort gives. *)
Lemma clean_dataframe_by_Ok (df t : DataFrame) :
  clean_dataframe_by sorter df = Ok t <->
  df <> [] /\ Forall (fun r => ~ non_numeric_string r) df /\
  t = map coerce (sort_values_by sorter (map dated df)).
Proof.
  assert (Hcarry : Forall (fun r => ~ non_numeric_string r)
                          (sort_values_by sorter (map dated df)) <->
                   Forall (fun r => ~ non_numeric_string r) df).
  { rewrite !Forall_forall. split.
    - intros H r Hr. apply (H (dated r)).
      apply (Permutation_in _ (Permutation_sym (sort_values_by_perm _))).
      now apply in_map.
    - intros H r Hr. apply (Permutation_in _ (sort_values_by_perm _)) in Hr.
      apply in_map_iff in Hr as (r0 & <- & Hr0). exact (H r0 Hr0). }
  split.
  - intros H. assert (Hne : df <> []) by (intros ->; discriminate).
    destruct df as [|r0 df0]; [congruence|].
    apply astype_float_Ok in H as [-> HF].
    split; [exact Hne|]. split; [|reflexivity]. apply Hcarry. exact HF.
  - intros (Hne & HF & ->). destruct df as [|r0 df0]; [congruence|].
    apply (astype_float_total (sort_values_by sorter (map dated (r0 :: df0)))).
    now apply Hcarry.
Qed.

(** C5, as the code has it.  The sort of the Cleaner does not settle the
    order of rows with the same date, so cleaning twice is cleaning once
    only up to that order.  Whenever cleaning a frame succeeds, cleaning
    the result succeeds too and returns the same rows, with the same
    values, in ascending order of date with the null dates last; when no
    two dated rows of the frame have the same date, it returns the result
    itself, rows in the same order. *)
Theorem clean_dataframe_idempotent_distinct (df t : DataFrame) :
  clean_dataframe_by sorter df = Ok t ->
  (distinct_dates df -> clean_dataframe_by sorter t = Ok t) /\
  (exists t', clean_dataframe_by sorter t = Ok t' /\
              Permutation t' t /\ sorted_by_date t').
Proof.
  intros H. apply clean_dataframe_by_Ok in H as (Hne & HF & Ht).
  assert (Hrows : forall r, In r t -> exists r0, In r0 df /\ r = coerce (dated r0)).
  { intros r Hr. rewrite Ht in Hr. apply in_map_iff in Hr as (r1 & <- & Hr1).
    apply (Permutation_in _ (sort_values_by_perm _)) in Hr1.
    apply in_map_iff in Hr1 as (r0 & <- & Hr0). now exists r0. }
  assert (Hfl : forall r, In r t -> exists x, value r = CNum x).
  { intros r Hr. destruct (Hrows r Hr) as (r0 & Hr0 & ->).
    apply value_coerce. exact (proj1 (Forall_forall _ _) HF r0 Hr0). }
  assert (Hdated : map dated t = t).
  { rewrite <- (map_id t) at 2. apply map_ext_in. intros r Hr.
    destruct (Hrows r Hr) as (r0 & _ & ->).
    apply dated_fixed. rewrite date_coerce, derived_date_coerce. reflexivity. }
  assert (Hco : forall l, Permutation l t -> map coerce l = l).
  { intros l Hl. rewrite <- (map_id l) at 2. apply map_ext_in. intros r Hr.
    apply coerce_float, Hfl. exact (Permutation_in _ Hl Hr). }
  assert (Hrun : clean_dataframe_by sorter t = Ok (sort_values_by sorter t)).
  { apply clean_dataframe_by_Ok. split; [|split].
    - intros E. rewrite E in Ht. symmetry in Ht. apply map_eq_nil in Ht.
      pose proof (Permutation_length (sort_values_by_perm (map dated df))) as HL.
      rewrite Ht, length_map in HL. destruct df; [congruence | discriminate].
    - apply Forall_forall. intros r Hr (s & Hs & _).
      destruct (Hfl r Hr) as [x Hx]. congruence.
    - rewrite Hdated. symmetry. apply Hco, sort_values_by_perm. }
  split.
  - intros Hd. rewrite Hrun. f_equal. unfold sort_values_by.
    set (A := filter notna (map dated df)) in *.
    assert (Hn : filter notna t = map coerce (sorter A)).
    { rewrite Ht, (filter_map_comm notna coerce _ notna_coerce).
      now rewrite filter_notna_sort_values_by. }
    assert (Hi : filter isna t = map coerce (filter isna (map dated df))).
    { rewrite Ht, (filter_map_comm isna coerce _ isna_coerce).
      now rewrite filter_isna_sort_values_by. }
    rewrite Hn, Hi, Ht. unfold sort_values_by. fold A.
    rewrite map_app. f_equal.
    apply key_sorted_unique.
    + apply sorter_sorts.
    + apply key_sorted_map; [apply key_coerce | apply sorter_sorts].
    + apply sorter_sorts.
    + eapply Permutation_NoDup;
        [apply Permutation_map, Permutation_sym, sorter_sorts|].
      rewrite map_map. erewrite map_ext; [|intros r; apply key_coerce].
      eapply Permutation_NoDup;
        [apply Permutation_map, Permutation_sym, sorter_sorts|].
      now apply distinct_dates_keys.
  - exists (sort_values_by sorter t). split; [exact Hrun|].
    split; [apply sort_values_by_perm|].
    apply sort_values_by_sorted. apply Forall_forall. intros r Hr.
    destruct (Hrows r Hr) as (r0 & _ & ->).
    unfold valid_month. rewrite date_coerce. unfold dated. simpl.
    destruct (derived_date r0) as [|y m] eqn:E; [exact I|].
    now apply to_datetime_month in E.
Qed.

(** X16. Which sort is at work shows in the order of rows of equal date
    and nowhere else.  Over any sort the Cleaner returns on the frames on
    which it returns over [argsort]; the frame it returns has the same rows,
    is in ascending order of date with the null dates last, and has the
    undated rows in the same order; and it is the very same frame when no
    two dated rows have the same date. *)
Theorem clean_dataframe_any_sort (df : DataFrame) :
  ((exists t, clean_dataframe_by sorter df = Ok t) <->
   (exists t0, clean_dataframe df = Ok t0)) /\
  (forall t t0,
     clean_dataframe_by sorter df = Ok t -> clean_dataframe df = Ok t0 ->
     Permutation t t0 /\ sorted_by_date t /\
     filter isna t = filter isna t0 /\
     (distinct_dates df -> t = t0)).
Proof.
  split.
  - split; intros [t H].
    + apply clean_dataframe_by_Ok in H as (Hne & HF & _).
      eexists. apply clean_dataframe_Ok. eauto.
    + apply clean_dataframe_Ok in H as (Hne & HF & _).
      eexists. apply clean_dataframe_by_Ok. eauto.
  - intros t t0 H H0.
    apply clean_dataframe_by_Ok in H as (_ & _ & ->).
    apply clean_dataframe_Ok in H0 as (_ & _ & ->).
    split; [|split; [|split]].
    + apply Permutation_map.
      eapply perm_trans; [apply sort_values_by_perm|].
      apply Permutation_sym, sort_values_perm.
    + apply sorted_by_date_map; [apply date_coerce|].
      apply sort_values_by_sorted, dated_valid.
    + rewrite !(filter_map_comm isna coerce _ isna_coerce).
      now rewrite filter_isna_sort_values_by, filter_isna_sort_values.
    + intros Hd. f_equal. unfold sort_values_by, sort_values. f_equal.
      apply argsort_unique; [|apply sorter_sorts | apply sorter_sorts].
      now apply distinct_dates_keys.
Qed.

End AnySort.

(* ================================================================== *)
(** * Further properties of the catalog, the Plotter and the scraper *)

(** ** [str] on integers *)

Lemma to_int_proper (z : Z) : Z.to_int z <> Decimal.Pos Decimal.Nil /\
                              Z.to_int z <> Decimal.Neg Decimal.Nil.
Proof.
  destruct z as [|p|p]; simpl; split; try discriminate;
    intros [= H]; now apply Unsigned.to_uint_nonnil in H.
Qed.

Lemma str_inj (a b : Z) : str a = str b -> a = b.
Proof.
  unfold str. intros H. apply DecimalZ.to_int_inj.
  destruct (to_int_proper a) as [Ha1 Ha2]. destruct (to_int_proper b) as [Hb1 Hb2].
  pose proof (NilZero.isi _ Ha1 Ha2) as Ea. pose proof (NilZero.isi _ Hb1 Hb2) as Eb.
  rewrite H in Ea. congruence.
Qed.

Lemma uint_chars (d : Decimal.uint) :
  all_chars numeral_char (NilEmpty.string_of_uint d) = true.
Proof. induction d; simpl; auto. Qed.

Lemma str_chars (z : Z) : all_chars numeral_char (str z) = true.
Proof.
  unfold str. destruct (Z.to_int z) as [d|d]; cbn [NilZero.string_of_int].
  - destruct d; try apply uint_chars. reflexivity.
  - cbn [all_chars]. destruct d; try apply uint_chars. reflexivity.
Qed.

Lemma str_head (z : Z) :
  exists c rest, str z = String c rest /\ numeral_char c = true.
Proof.
  pose proof (str_chars z) as H. unfold str in *.
  destruct (Z.to_int z) as [d|d]; cbn [NilZero.string_of_int] in *.
  - destruct d; cbn in *; eauto.
  - eauto.
Qed.

Lemma all_chars_app (p : ascii -> bool) (u v : string) :
  all_chars p (u ++ v) = all_chars p u && all_chars p v.
Proof.
  induction u as [|c u IH]; simpl; [reflexivity|].
  now rewrite IH, andb_assoc.
Qed.

(** Two numerals followed by an underscore come apart in one way only. *)
Lemma split_at_underscore (u : string) :
  forall u' v v',
    all_chars numeral_char u = true -> all_chars numeral_char u' = true ->
    u ++ String "_" v = u' ++ String "_" v' -> u = u' /\ v = v'.
Proof.
  induction u as [|c u IH]; intros [|c' u'] v v' Hu Hu' H; cbn in *.
  - now injection H as <-.
  - injection H as <- _. discriminate.
  - injection H as -> _. discriminate.
  - injection H as <- H. apply andb_true_iff in Hu as [_ Hu].
    apply andb_true_iff in Hu' as [_ Hu'].
    destruct (IH _ _ _ Hu Hu' H) as [-> ->]. auto.
Qed.

Lemma string_tail_eq (c : ascii) (u v : string) : String c u = String c v -> u = v.
Proof. now intros [= ->]. Qed.

Lemma numeral_tail (z1 e1 z2 e2 : Z) :
  str z1 ++ "_" ++ str e1 = str z2 ++ "_" ++ str e2 -> z1 = z2 /\ e1 = e2.
Proof.
  intros H. cbn [append] in H.
  apply split_at_underscore in H as [H1 H2]; try apply str_chars.
  split; now apply str_inj.
Qed.

Lemma numeral_not_letter (z : Z) (c : ascii) (u v : string) :
  numeral_char c = false -> str z ++ u = String c v -> False.
Proof.
  intros Hc H. destruct (str_head z) as (c' & rest & E & Hc').
  rewrite E in H. cbn in H. injection H as -> _. congruence.
Qed.

Ltac peel H :=
  cbn [append] in H;
  repeat first [ discriminate H | apply string_tail_eq in H ].

(** X12. The output name tells the accessor and the years apart: two
    output names built by accessors of the catalog are equal only for the
    same accessor, the same start year and the same end year. *)
Theorem output_name_inj (n1 n2 : string) (s1 e1 s2 e2 : Z) :
  In n1 names -> In n2 names ->
  output_name n1 s1 e1 = output_name n2 s2 e2 ->
  n1 = n2 /\ s1 = s2 /\ e1 = e2.
Proof.
  unfold names, output_name. intros H1 H2 H.
  repeat (destruct H1 as [<-|H1]); try contradiction;
    repeat (destruct H2 as [<-|H2]); try contradiction;
    peel H;
    first [ split; [reflexivity | now apply numeral_tail]
          | exfalso; eapply numeral_not_letter; [|exact H]; reflexivity
          | exfalso; symmetry in H;
            eapply numeral_not_letter; [|exact H]; reflexivity ].
Qed.

Section CatalogFacts.

Variable upstream : nat -> response.

Lemma process_cpi_series_posts (start_year end_year : Z)
      (ticker output_filename plot_title format : string) (plot : bool) (s : St) :
  let run := process_cpi_series upstream start_year end_year ticker
                                output_filename plot_title format plot s in
  (exists m, sent (snd run) =
             (sent s ++ map (window ticker start_year end_year) (seq 0 m))%list) /\
  forall u, fst run = Ok u ->
    exists t, files (snd run) =
      (files s ++ [mkFile (output_filename ++ "." ++ extension format)
                          (kind format) t])%list.
Proof.
  intros run. subst run.
  destruct (single_series upstream start_year end_year ticker s) as [o1 s1] eqn:E1.
  rewrite (process_cpi_series_run _ _ _ _ _ _ _ _ _ _ _ E1).
  destruct (single_series_frame _ _ _ _ _ _ _ E1) as [Hf _].
  assert (Hposted : exists m, sent s1 =
            (sent s ++ map (window ticker start_year end_year) (seq 0 m))%list).
  { unfold single_series in E1.
    destruct (Z.gtb_spec (end_year - start_year) 10).
    - unfold bind at 1 in E1.
      destruct (for_loop upstream (passes start_year end_year) start_year end_year
                         ticker [] None s) as [o2 s2] eqn:Hloop.
      destruct (for_loop_posts _ _ _ _ _ _ _ _ _ _ Hloop) as (m & Hsent & _).
      exists m. rewrite <- Hsent. f_equal.
      destruct o2 as [[list_df status]|e].
      + unfold bind, lift, ret, raise in E1.
        destruct list_df; destruct status; simpl in E1; congruence.
      + congruence.
    - destruct (generic_request_spec upstream ticker start_year end_year s)
        as (s2 & Hrun & Hsent & _).
      rewrite Hrun in E1. injection E1 as <- <-. exists 1%nat.
      now rewrite Hsent, window_0. }
  destruct o1 as [[df status]|e]; cbn [fst snd]; [|split; [exact Hposted|discriminate]].
  destruct (empty df && (status =? 200)); cbn [fst snd];
    [split; [exact Hposted|discriminate]|].
  destruct (clean_dataframe df) as [t|e]; cbn [fst snd];
    [|split; [exact Hposted|discriminate]].
  destruct (save_dataframe_file t format output_filename s1)
    as (s2 & Hsave & Hfiles & Hsent & _).
  rewrite Hsave. cbn [fst snd sent files]. rewrite Hsent.
  split; [exact Hposted|]. intros _ _. exists t. congruence.
Qed.

(** X13. Every accessor of the catalog asks for its own series only --
    each request it posts carries the series id of the accessor, and is
    the request of a pass of the Splitter on the years given -- and when
    it returns it has written one more file, named after the accessor and
    the years: NAME_start_end, a dot and the extension of the format. *)
Theorem catalog_runs (ticker name : string)
        (accessor : Z -> Z -> string -> bool -> M unit)
        (start_year end_year : Z) (format : string) (plot : bool) (s : St) :
  In (ticker, name, accessor) (catalog upstream) ->
  let run := accessor start_year end_year format plot s in
  (exists m, sent (snd run) =
             (sent s ++ map (window ticker start_year end_year) (seq 0 m))%list) /\
  forall u, fst run = Ok u ->
    exists t, files (snd run) =
      (files s ++ [mkFile (output_name name start_year end_year ++ "."
                           ++ extension format) (kind format) t])%list.
Proof.
  unfold catalog. intros H.
  repeat (destruct H as [[= <- <- <-]|H]); try contradiction;
    apply process_cpi_series_posts.
Qed.

End CatalogFacts.

(** ** The Plotter *)

Lemma replace_underscore_plain (s : string) :
  all_chars (fun c => negb (Ascii.eqb c "_")) (replace_underscore s) = true.
Proof.
  induction s as [|c s IH]; simpl; [reflexivity|].
  rewrite IH, andb_true_r.
  destruct (Ascii.eqb c "_") eqn:E; [reflexivity | now rewrite E].
Qed.

Lemma numeral_plain (s : string) :
  all_chars numeral_char s = true ->
  all_chars (fun c => negb (Ascii.eqb c "_")) s = true.
Proof.
  induction s as [|c s IH]; simpl; [reflexivity|].
  intros H. apply andb_true_iff in H as [Hc Hs]. rewrite (IH Hs), andb_true_r.
  destruct (Ascii.eqb_spec c "_") as [->|]; [discriminate | reflexivity].
Qed.

(** X14. The figure of a frame has one point per row, and its title is
    the name with every underscore turned into a space, followed by the
    years: no underscore is left in the title, and a name without
    underscores is kept as it is. *)
Theorem plot_series_cpi_figure (df : DataFrame) (start_year end_year : Z)
        (name : string) :
  let fig := plot_series_cpi df start_year end_year name in
  List.length (fig_x fig) = List.length df /\
  List.length (fig_y fig) = List.length df /\
  all_chars (fun c => negb (Ascii.eqb c "_")) (fig_title fig) = true /\
  String.length (replace_underscore name) = String.length name /\
  (all_chars (fun c => negb (Ascii.eqb c "_")) name = true ->
   fig_title fig = name ++ " | " ++ str start_year ++ " - " ++ str end_year).
Proof.
  cbn zeta. unfold plot_series_cpi. cbn [fig_x fig_y fig_title].
  rewrite !length_map. split; [reflexivity|]. split; [reflexivity|].
  split; [|split].
  - rewrite !all_chars_app, replace_underscore_plain.
    rewrite !(numeral_plain _ (str_chars _)). reflexivity.
  - induction name as [|c n IH]; simpl; [reflexivity | now rewrite IH].
  - intros H. f_equal.
    induction name as [|c n IH]; simpl in *; [reflexivity|].
    apply andb_true_iff in H as [Hc Hn]. rewrite (IH Hn).
    destruct (Ascii.eqb c "_"); [discriminate | reflexivity].
Qed.

(** ** The scraper *)

(** X15. The scraper writes the first table found, without its last row
    and with the other rows in order, to CPI_NEWS_RELEASE.xlsx; a table
    without rows is written without rows; with no table found it raises
    and writes nothing. *)
Theorem scrapper_release_drops_last {R : Type} :
  @scrapper_release R [] = Raise (ValueError "No tables found") /\
  (forall (front : list R) (last : R) (others : list (list R)),
     scrapper_release ((front ++ [last])%list :: others)
     = Ok ("CPI_NEWS_RELEASE.xlsx", front)) /\
  (forall others : list (list R),
     scrapper_release ([] :: others) = Ok ("CPI_NEWS_RELEASE.xlsx", [])).
Proof.
  split; [reflexivity|]. split.
  - intros front last others. unfold scrapper_release, read_html.
    now rewrite removelast_last.
  - reflexivity.
Qed.

(* ================================================================== *)
(** * The further properties on concrete runs *)

Lemma generic_request_returns_witness :
  exists data Results series0 others records,
    json (always_data 0) = Some data /\
    b_status data = Some "REQUEST_SUCCEEDED" /\
    b_Results data = Some Results /\
    r_series Results = Some (series0 :: others) /\
    s_data series0 = Some records /\
    from_records [january "2000" "168.8"] = from_records records.
Proof.
  destruct (generic_request_returns always_data "CUSR0000SA0" 2015 2020 init
              (from_records [january "2000" "168.8"]) 200 eq_refl)
    as (_ & _ & H).
  apply H. discriminate.
Defined.

Lemma generic_request_raises_witness :
  fst (generic_request (fun _ => refused_without_message)
                       "CUSR0000SA0" 2015 2020 init) = Raise (KeyError "message") /\
  stdout (snd (generic_request (fun _ => refused_without_message)
                               "CUSR0000SA0" 2015 2020 init)) = [].
Proof.
  destruct (generic_request_raises (fun _ => refused_without_message)
              "CUSR0000SA0" 2015 2020 init) as (_ & H).
  destruct (H eq_refl) as (_ & Hdata).
  destruct (Hdata (mkBody (Some "REQUEST_NOT_PROCESSED") None None) eq_refl)
    as (_ & Hmsg & _).
  apply (Hmsg "REQUEST_NOT_PROCESSED"); [reflexivity | discriminate | reflexivity].
Defined.

Lemma single_series_requests_witness :
  exists m,
    sent (snd (single_series gap 2000 2023 "CUSR0000SAM" init)) =
      map (window "CUSR0000SAM" 2000 2023) (seq 0 m) /\
    (1 <= m)%nat /\ Z.of_nat m <= 3.
Proof.
  destruct (single_series_requests gap 2000 2023 "CUSR0000SAM" init)
    as (m & H1 & H2 & H3 & _).
  exists m. split; [exact H1|]. split; [exact H2 | exact H3].
Defined.

Lemma single_series_stops_witness :
  fst (single_series no_rows 2000 2023 "CUSR0000SAM" init) = Raise integrity_error /\
  sent (snd (single_series no_rows 2000 2023 "CUSR0000SAM" init))
    = [mkPayload ["CUSR0000SAM"] 2000 2023].
Proof.
  destruct (single_series_stops no_rows 2000 2023 "CUSR0000SAM" init
              (fetched no_rows) 0%nat integrity_error) as (H1 & H2 & _).
  - lia.
  - vm_compute. lia.
  - intros i Hi. lia.
  - right. split; reflexivity.
  - split; [exact H1 | exact H2].
Defined.

Lemma single_series_never_empty_200_witness :
  ~ (fst (fetched always_data 0) ++ fst (fetched always_data 1)
       ++ fst (fetched always_data 2) = [] /\ 200 = 200)%list.
Proof.
  apply (single_series_never_empty_200 always_data 2000 2020 "CUSR0000SA0" init).
  - lia.
  - reflexivity.
Defined.

Lemma process_cpi_series_http_errors_witness :
  fst (process_cpi_series (fun _ => mkResponse 503 None) 2000 2023 "CUSR0000SAM"
         "CPI_MEDICAL_CARE_2000_2023" "CPI_MEDICAL_CARE" "txt" true init)
    = Raise (KeyError "year").
Proof.
  apply (process_cpi_series_http_errors (fun _ => mkResponse 503 None) 2000 2023
           "CUSR0000SAM" "CPI_MEDICAL_CARE_2000_2023" "CPI_MEDICAL_CARE" "txt"
           true init).
  intros i _. simpl. lia.
Defined.

Lemma process_cpi_series_refused_witness :
  fst (process_cpi_series always_refused 2000 2023 "CUSR0000SAM"
         "CPI_MEDICAL_CARE_2000_2023" "CPI_MEDICAL_CARE" "txt" true init)
    = Raise integrity_error.
Proof.
  apply (process_cpi_series_refused always_refused 2000 2023 "CUSR0000SAM"
           "CPI_MEDICAL_CARE_2000_2023" "CPI_MEDICAL_CARE" "txt" true init
           (mkBody (Some "REQUEST_NOT_PROCESSED") (Some ["Series id is not valid"])
                   (Some (mkResults None)))
           "REQUEST_NOT_PROCESSED" ["Series id is not valid"]);
    try reflexivity.
  discriminate.
Defined.

Lemma clean_dataframe_nulls_last_witness :
  map untouched (filter isna sample_cleaned) = map untouched (filter undated sample).
Proof.
  apply (clean_dataframe_nulls_last sample sample_cleaned). reflexivity.
Defined.

Lemma clean_dataframe_order_free_witness :
  clean_dataframe [ mkRow "2020" "M03" "March" (CStr "258.115") None;
                    mkRow "2020" "M01" "January" (CStr "257.971") None ] =
  clean_dataframe [ mkRow "2020" "M01" "January" (CStr "257.971") None;
                    mkRow "2020" "M03" "March" (CStr "258.115") None ].
Proof.
  apply clean_dataframe_order_free.
  - apply perm_swap.
  - repeat constructor.
  - repeat constructor; simpl; intuition discriminate.
Defined.

Lemma output_name_inj_witness :
  "CPI_FOOD" = "CPI_FOOD" /\ 2000 = 2000 /\ 2020 = 2020.
Proof.
  apply (output_name_inj "CPI_FOOD" "CPI_FOOD" 2000 2020 2000 2020).
  - simpl. auto.
  - simpl. auto.
  - reflexivity.
Defined.

Lemma catalog_runs_witness :
  exists t,
    files (snd (cpi_food always_data 2015 2020 "csv" false init)) =
      [mkFile "CPI_FOOD_2015_2020.csv" (Csv ",") t].
Proof.
  destruct (catalog_runs always_data "CUSR0000SAF1" "CPI_FOOD"
              (cpi_food always_data) 2015 2020 "csv" false init) as (_ & H).
  - right. right. left. reflexivity.
  - apply (H tt). reflexivity.
Defined.

(** C5 as the specification states it fails on seventeen rows of the same
    date, under a sort that keeps rows of equal date in order up to
    sixteen rows and not beyond: the second cleaning returns the rows of
    the first in another order. *)
Lemma clean_dataframe_reorders_ties :
  sorts ties_reversed /\
  exists t t',
    clean_dataframe_by ties_reversed ties = Ok t /\
    clean_dataframe_by ties_reversed t = Ok t' /\
    t' <> t.
Proof.
  split; [exact sorts_ties_reversed|].
  destruct (clean_dataframe_by ties_reversed ties) as [t|e] eqn:E1;
    [|vm_compute in E1; discriminate E1].
  destruct (clean_dataframe_by ties_reversed t) as [t'|e] eqn:E2.
  - exists t, t'. split; [reflexivity|]. split; [exact E2|].
    vm_compute in E1. injection E1 as <-. vm_compute in E2. injection E2 as <-.
    discriminate.
  - vm_compute in E1. injection E1 as <-. vm_compute in E2. discriminate E2.
Qed.

Lemma clean_dataframe_idempotent_distinct_witness :
  clean_dataframe_by argsort sample = Ok sample_cleaned /\
  clean_dataframe_by argsort sample_cleaned = Ok sample_cleaned.
Proof.
  split; [reflexivity|].
  apply (proj1 (clean_dataframe_idempotent_distinct argsort sorts_argsort
                  sample sample_cleaned eq_refl)).
  unfold distinct_dates. vm_compute.
  repeat constructor; simpl; intuition discriminate.
Defined.

Lemma clean_dataframe_any_sort_witness :
  exists t, clean_dataframe_by reversing sample = Ok t /\ t = sample_cleaned.
Proof.
  destruct (clean_dataframe_any_sort reversing sorts_reversing sample)
    as [Hruns Hsame].
  destruct (proj2 Hruns (ex_intro _ sample_cleaned eq_refl)) as [t Ht].
  exists t. split; [exact Ht|].
  destruct (Hsame t sample_cleaned Ht eq_refl) as (_ & _ & _ & Heq).
  apply Heq. unfold distinct_dates. vm_compute.
  repeat constructor; simpl; intuition discriminate.
Defined.
